(** * A shallow embedding of [mirror_gitlab_to_github.py]

    The script enumerates the projects of a GitLab instance page by page,
    keeps a bare mirror of each one on disk, makes sure a repository of the
    same leaf name exists in a GitHub organisation and pushes the mirror to
    it.  Every Python value the script handles is either a string, a number
    or decoded JSON; every effect (HTTP, subprocess, filesystem, clock,
    console) goes through a handler of the host, and is recorded in a trace.
*)

From Stdlib Require Import ZArith String Ascii List Bool Lia.
From stdpp Require Import base strings gmap list pretty.

Set Warnings "-register-all".
Local Open Scope string_scope.
Local Open Scope Z_scope.

(* ================================================================== *)
(** ** Python string methods used by the script *)
(* ================================================================== *)

Module PyStr.

Local Open Scope nat_scope.

(** [s.startswith(p)] *)
Fixpoint startswith (p s : string) : bool :=
  match p, s with
  | EmptyString, _ => true
  | String _ _, EmptyString => false
  | String a p', String b s' => Ascii.eqb a b && startswith p' s'
  end.

(** [s.endswith(p)] *)
Definition endswith (p s : string) : bool :=
  startswith (String.rev p) (String.rev s).

(** [needle in hay] *)
Fixpoint contains (needle hay : string) : bool :=
  startswith needle hay ||
  match hay with
  | EmptyString => false
  | String _ hay' => contains needle hay'
  end.

(** [s.replace(old, new)] for a one-character [old]. *)
Fixpoint replace (old : ascii) (new : string) (s : string) : string :=
  match s with
  | EmptyString => EmptyString
  | String c s' =>
      if Ascii.eqb c old then new +:+ replace old new s'
      else String c (replace old new s')
  end.

(** [s.rstrip(c)] for a one-character set [c]. *)
Fixpoint rstrip (c : ascii) (s : string) : string :=
  match s with
  | EmptyString => EmptyString
  | String a s' =>
      match rstrip c s' with
      | EmptyString => if Ascii.eqb a c then EmptyString else String a EmptyString
      | String b r => String a (String b r)
      end
  end.

(** Every character of [s] is [c]: what [s == c * len(s)] tests. *)
Fixpoint all_char (c : ascii) (s : string) : bool :=
  match s with
  | EmptyString => true
  | String a s' => Ascii.eqb a c && all_char c s'
  end.

(** [c in s] for a character. *)
Fixpoint has_char (c : ascii) (s : string) : bool :=
  match s with
  | EmptyString => false
  | String a s' => Ascii.eqb a c || has_char c s'
  end.

(** [s != ""], the truth value of a string. *)
Definition nonempty (s : string) : bool :=
  match s with EmptyString => false | String _ _ => true end.

(** [sep.join(parts)] *)
Fixpoint join (sep : string) (parts : list string) : string :=
  match parts with
  | [] => ""
  | [p] => p
  | p :: rest => p +:+ sep +:+ join sep rest
  end.

End PyStr.

(* ================================================================== *)
(** ** [posixpath] *)
(* ================================================================== *)

Module OsPath.

Definition sep : ascii := "/"%char.

(** [os.path.join(a, b)] *)
Definition join (a b : string) : string :=
  if PyStr.startswith "/" b then b
  else if negb (PyStr.nonempty a) || PyStr.endswith "/" a then a +:+ b
  else a +:+ "/" +:+ b.

(** [p[:p.rfind('/') + 1]] *)
Fixpoint head (p : string) : string :=
  match p with
  | EmptyString => EmptyString
  | String c p' =>
      if PyStr.has_char sep p' then String c (head p')
      else if Ascii.eqb c sep then String c EmptyString
      else EmptyString
  end.

(** [os.path.dirname(p)] *)
Definition dirname (p : string) : string :=
  let h := head p in
  if PyStr.nonempty h && negb (PyStr.all_char sep h) then PyStr.rstrip sep h
  else h.

End OsPath.

(* ================================================================== *)
(** ** Decoded JSON, as [r.json()] returns it *)
(* ================================================================== *)

Module Json.

(** Numbers are integers: no field the script reads is fractional.  An
    object is its list of members in insertion order, with distinct keys;
    [lookup] reads the first binding of a key. *)
Inductive json : Type :=
| JNull
| JBool (b : bool)
| JNum (n : Z)
| JStr (s : string)
| JArr (items : list json)
| JObj (members : list (string * json)).

(** Python's truth value: [None], [False], [0], [""], [[]] and [{}] are
    false, every other value is true. *)
Definition truthy (v : json) : bool :=
  match v with
  | JNull => false
  | JBool b => b
  | JNum n => negb (n =? 0)
  | JStr s => PyStr.nonempty s
  | JArr items => match items with [] => false | _ => true end
  | JObj members => match members with [] => false | _ => true end
  end.

Fixpoint lookup (k : string) (members : list (string * json)) : option json :=
  match members with
  | [] => None
  | (k', v) :: rest => if String.eqb k k' then Some v else lookup k rest
  end.

(** [repr(v)].  A string is put between apostrophes as it is: this is
    Python's [repr] for the strings without apostrophe, backslash or
    control character, which Python writes without an escape.  The
    script only meets [repr] through [str] of a value that is no
    string. *)
Fixpoint repr (v : json) : string :=
  match v with
  | JNull => "None"
  | JBool true => "True"
  | JBool false => "False"
  | JNum n => pretty n
  | JStr s => "'" +:+ s +:+ "'"
  | JArr items => "[" +:+ PyStr.join ", " (List.map repr items) +:+ "]"
  | JObj members =>
      "{" +:+ PyStr.join ", "
                (List.map (fun kv => match kv with
                                     | (k, x) => "'" +:+ k +:+ "': " +:+ repr x
                                     end) members) +:+ "}"
  end.

(** [str(v)], what an f-string puts in place of [{v}]. *)
Definition str (v : json) : string :=
  match v with
  | JStr s => s
  | _ => repr v
  end.

End Json.
Export Json.

(* ================================================================== *)
(** ** Effects: exceptions, the host and the trace *)
(* ================================================================== *)

Module Effects.

(** The subclasses of [Exception] that the script can meet; [OSError]
    stands for its subclasses too, under their names
    ([FileNotFoundError], [NotADirectoryError], [PermissionError], ...). *)
Inductive exception : Type :=
| HTTPError (status : Z)
| ConnectionError
| JSONDecodeError
| KeyError (key : string)
| TypeError
| AttributeError
| OSError (name : string)
| ValueError.

(** How a computation ends: with a value, with an exception, with
    [sys.exit(code)], or never ([Diverge]: the loop bound ran out). *)
Inductive result (A : Type) : Type :=
| Return (a : A)
| Raise (e : exception)
| Exit (code : Z)
| Diverge.
Arguments Return {A} a.
Arguments Raise {A} e.
Arguments Exit {A} code.
Arguments Diverge {A}.

(** A [requests.Response]: [body] is what [r.json()] decodes, [None]
    when the text is not JSON. *)
Record response : Type := Response {
  status_code : Z;
  text : string;
  body : option json
}.

(** What the script does to the outside world, in order.  A command and
    a directory creation are recorded with what they answered: the exit
    status, or the exception that the call raised. *)
Inductive event : Type :=
| Print (line : string)
| HttpGet (url : string) (headers : list (string * string))
          (params : list (string * json))
| HttpPost (url : string) (headers : list (string * string)) (payload : json)
| Run (cmd : string) (cwd : option string) (answer : exception + Z)
| Makedirs (path : string) (answer : exception + unit)
| Sleep (seconds : Z).

(** The outside world: the two hosting services, the [git] subprocess,
    the filesystem and the clock, over a state [W] of their own.
    [subprocess.run(cmd, cwd=cwd, shell=True)] answers with the exit
    status of the shell, or raises (an [OSError] when the working
    directory is missing or is no directory); [os.makedirs(path,
    exist_ok=True)] returns or raises (an [OSError] when the path is
    taken by a file or may not be created). *)
Record Host (W : Type) : Type := MkHost {
  requests_get : string -> list (string * string) -> list (string * json) ->
                 W -> W * (exception + response);
  requests_post : string -> list (string * string) -> json ->
                  W -> W * (exception + response);
  subprocess_run : string -> option string -> W -> W * (exception + Z);
  os_path_exists : string -> W -> bool;
  os_makedirs : string -> W -> W * (exception + unit);
  time_sleep : Z -> W -> W
}.
Arguments requests_get {W} _ _ _ _ _.
Arguments requests_post {W} _ _ _ _ _.
Arguments subprocess_run {W} _ _ _ _.
Arguments os_path_exists {W} _ _ _.
Arguments os_makedirs {W} _ _ _.
Arguments time_sleep {W} _ _ _.

(** A computation: from a world to the world it leaves, the events it
    emitted and how it ended. *)
Definition M (W A : Type) : Type := W -> W * list event * result A.

Definition ret {W A} (a : A) : M W A := fun w => (w, [], Return a).

Definition raise {W A} (e : exception) : M W A := fun w => (w, [], Raise e).

Definition sys_exit {W A} (code : Z) : M W A := fun w => (w, [], Exit code).

Definition diverge {W A} : M W A := fun w => (w, [], Diverge).

Definition bind {W A B} (m : M W A) (k : A -> M W B) : M W B :=
  fun w =>
    match m w with
    | (w1, t1, Return a) =>
        match k a w1 with
        | (w2, t2, r) => (w2, (t1 ++ t2)%list, r)
        end
    | (w1, t1, Raise e) => (w1, t1, Raise e)
    | (w1, t1, Exit c) => (w1, t1, Exit c)
    | (w1, t1, Diverge) => (w1, t1, Diverge)
    end.

(** [try: m  except Exception as e: h e] *)
Definition try_except {W A} (m : M W A) (h : exception -> M W A) : M W A :=
  fun w =>
    match m w with
    | (w1, t1, Raise e) =>
        match h e w1 with
        | (w2, t2, r) => (w2, (t1 ++ t2)%list, r)
        end
    | other => other
    end.

Definition emit {W} (e : event) : M W unit := fun w => (w, [e], Return tt).

Definition world_of {W A} (x : W * list event * result A) : W := x.1.1.
Definition trace_of {W A} (x : W * list event * result A) : list event := x.1.2.
Definition result_of {W A} (x : W * list event * result A) : result A := x.2.

(** The status the interpreter exits with: 0 when the script runs to
    its end, 1 on an uncaught exception, the argument of [sys.exit]. *)
Definition exit_status {A} (r : result A) : option Z :=
  match r with
  | Return _ => Some 0
  | Raise _ => Some 1
  | Exit c => Some c
  | Diverge => None
  end.

End Effects.
Export Effects.

Declare Scope py_scope.
Delimit Scope py_scope with py.
Notation "'let*' x ':=' m 'in' k" := (bind m (fun x => k))
  (at level 10, x name, m at level 200, k at level 200) : py_scope.
Notation "m ';;' k" := (bind m (fun _ => k))
  (at level 100, k at level 200, right associativity) : py_scope.

(* ================================================================== *)
(** ** The script *)
(* ================================================================== *)

Module Mirror.

Local Open Scope py_scope.

(** The module-level constants, once the start-up check has passed. *)
Record config : Type := Config {
  GITLAB_URL : string;
  GITLAB_TOKEN : string;
  GITHUB_ORG : string;
  GITHUB_TOKEN : string;
  CLONE_BASE : string
}.

(** Why an iteration of the loop of [main] ended in [continue]. *)
Inductive skip_reason : Type :=
| Archived
| CloneError
| FetchError
| CreateError (e : exception)
| RemoteAddError
| PushError.

(** How an iteration of the loop of [main] ended: at the end of the
    body, or at one of its [continue] statements. *)
Inductive outcome : Type :=
| Completed
| Skipped (reason : skip_reason).

Definition dquote : string := String (ascii_of_nat 34) EmptyString.
Definition newline : string := String (ascii_of_nat 10) EmptyString.

(** [str(e)], approximately: the text after the colon in the log. *)
Definition exception_str (e : exception) : string :=
  match e with
  | HTTPError status => pretty status +:+ " Error"
  | ConnectionError => "Connection aborted."
  | JSONDecodeError => "Expecting value: line 1 column 1 (char 0)"
  | KeyError key => "'" +:+ key +:+ "'"
  | TypeError => "TypeError"
  | AttributeError => "AttributeError"
  | OSError name => name
  | ValueError => "ValueError"
  end.

Definition per_page : nat := 100.

Section Script.
Context {W : Type} (host : Host W).

(** *** Calls into the host *)

Definition print (line : string) : M W unit := emit (Print line).

Definition subprocess (cmd : string) (cwd : option string) : M W Z :=
  fun w =>
    match subprocess_run host cmd cwd w with
    | (w', inr returncode) =>
        (w', [Run cmd cwd (inr returncode)], Return returncode)
    | (w', inl e) => (w', [Run cmd cwd (inl e)], Raise e)
    end.

Definition http_get (url : string) (headers : list (string * string))
    (params : list (string * json)) : M W response :=
  fun w =>
    match requests_get host url headers params w with
    | (w', inr r) => (w', [HttpGet url headers params], Return r)
    | (w', inl e) => (w', [HttpGet url headers params], Raise e)
    end.

Definition http_post (url : string) (headers : list (string * string))
    (payload : json) : M W response :=
  fun w =>
    match requests_post host url headers payload w with
    | (w', inr r) => (w', [HttpPost url headers payload], Return r)
    | (w', inl e) => (w', [HttpPost url headers payload], Raise e)
    end.

Definition path_exists (path : string) : M W bool :=
  fun w => (w, [], Return (os_path_exists host path w)).

Definition makedirs (path : string) : M W unit :=
  fun w =>
    match os_makedirs host path w with
    | (w', inr tt) => (w', [Makedirs path (inr tt)], Return tt)
    | (w', inl e) => (w', [Makedirs path (inl e)], Raise e)
    end.

Definition sleep (seconds : Z) : M W unit :=
  fun w => (time_sleep host seconds w, [Sleep seconds], Return tt).

(** *** Python operations on decoded JSON *)

(** The statuses that [raise_for_status] rejects: 400 to 599. *)
Definition is_error (status : Z) : bool :=
  (400 <=? status) && (status <? 600).

(** [r.raise_for_status()] *)
Definition raise_for_status (r : response) : M W unit :=
  if is_error (status_code r)
  then raise (HTTPError (status_code r))
  else ret tt.

(** [r.json()] *)
Definition response_json (r : response) : M W json :=
  match body r with
  | Some v => ret v
  | None => raise JSONDecodeError
  end.

(** [d[key]] for a string [key] *)
Definition subscript (d : json) (key : string) : M W json :=
  match d with
  | JObj members =>
      match Json.lookup key members with
      | Some v => ret v
      | None => raise (KeyError key)
      end
  | _ => raise TypeError
  end.

(** [d.get(key, default)] *)
Definition get (d : json) (key : string) (default : json) : M W json :=
  match d with
  | JObj members =>
      match Json.lookup key members with
      | Some v => ret v
      | None => ret default
      end
  | _ => raise AttributeError
  end.

(** [len(v)] *)
Definition len (v : json) : M W nat :=
  match v with
  | JArr items => ret (length items)
  | JObj members => ret (length members)
  | JStr s => ret (String.length s)
  | _ => raise TypeError
  end.

(** [projects.extend(v)]: the list [projects] after the call. *)
Definition extend (projects : list json) (v : json) : M W (list json) :=
  match v with
  | JArr items => ret (projects ++ items)%list
  | JObj members => ret (projects ++ List.map (fun kv => JStr kv.1) members)%list
  | JStr s =>
      ret (projects ++
           List.map (fun c => JStr (String c EmptyString)) (list_ascii_of_string s))%list
  | _ => raise TypeError
  end.

(** *** The helpers of the script *)

Definition run (cmd : string) (cwd : option string) : M W Z :=
  print (newline +:+ ">> " +:+ cmd) ;;
  let* returncode := subprocess cmd cwd in
  (if negb (returncode =? 0)
   then print ("Command failed with code " +:+ pretty returncode)
   else ret tt) ;;
  ret returncode.

Context (cfg : config).

Definition gitlab_get (path : string) (params : option (list (string * json)))
    : M W response :=
  let headers := [("PRIVATE-TOKEN", GITLAB_TOKEN cfg)] in
  let url := GITLAB_URL cfg +:+ "/api/v4" +:+ path in
  let* r := http_get url headers (from_option id [] params) in
  raise_for_status r ;;
  ret r.

(** The query of the listing call for page [page]. *)
Definition list_params (page : nat) : list (string * json) :=
  [("simple", JBool true);
   ("membership", JBool false);
   ("per_page", JNum (Z.of_nat per_page));
   ("page", JNum (Z.of_nat page));
   ("order_by", JStr "id");
   ("sort", JStr "asc")].

(** The [while True] loop of [list_all_gitlab_projects], from the
    state ([page], [projects]); [fuel] bounds the iterations. *)
Fixpoint list_pages (fuel : nat) (page : nat) (projects : list json)
    : M W (list json) :=
  match fuel with
  | O => diverge
  | S fuel' =>
      let* r := gitlab_get "/projects" (Some (list_params page)) in
      let* batch := response_json r in
      if negb (truthy batch) then ret projects
      else
        let* projects := extend projects batch in
        let* n := len batch in
        if (n <? per_page)%nat then ret projects
        else list_pages fuel' (S page) projects
  end.

Definition list_all_gitlab_projects (fuel : nat) : M W (list json) :=
  list_pages fuel 1%nat [].

(** The clone URL that the name-conflict branch builds. *)
Definition reused_url (name : json) : string :=
  "https://github.com/" +:+ GITHUB_ORG cfg +:+ "/" +:+ str name +:+ ".git".

Definition repos_url : string :=
  "https://api.github.com/orgs/" +:+ GITHUB_ORG cfg +:+ "/repos".

Definition github_headers : list (string * string) :=
  [("Authorization", "token " +:+ GITHUB_TOKEN cfg);
   ("Accept", "application/vnd.github+json")].

Definition repo_payload (name description : json) (private : bool) : json :=
  JObj [("name", name);
        ("description", description);
        ("private", JBool private);
        ("auto_init", JBool false)].

(** The test of the reuse branch: status 422 and a body that says the
    name already exists. *)
Definition name_conflict (r : response) : bool :=
  (status_code r =? 422) && PyStr.contains "name already exists" (text r).

Definition create_github_repo (name description : json) (private : bool)
    : M W json :=
  let url := repos_url in
  let headers := github_headers in
  let payload := repo_payload name description private in
  let* r := http_post url headers payload in
  if name_conflict r
  then
    print ("GitHub repo " +:+ str name +:+ " already exists, reusing.") ;;
    ret (JStr (reused_url name))
  else
    raise_for_status r ;;
    let* data := response_json r in
    subscript data "clone_url".

(** *** [main] *)

(** [full_path.replace("/", "__") + ".git"]: the name of the bare
    mirror of a project under [CLONE_BASE]. *)
Definition mirror_name (full_path : string) : string :=
  PyStr.replace "/" "__" full_path +:+ ".git".

(** [os.path.join(CLONE_BASE, full_path.replace("/", "__") + ".git")];
    only a [str] has the method [replace]. *)
Definition local_mirror (full_path : json) : M W string :=
  match full_path with
  | JStr s => ret (OsPath.join (CLONE_BASE cfg) (mirror_name s))
  | _ => raise AttributeError
  end.

Definition clone_cmd (http_url : json) (local_dir : string) : string :=
  "git -c http.sslVerify=false clone --mirror " +:+
  dquote +:+ str http_url +:+ dquote +:+ " " +:+
  dquote +:+ local_dir +:+ dquote.

(** [not p.get("public", False)] *)
Definition private_flag (p : json) : M W bool :=
  let* public := get p "public" (JBool false) in
  ret (negb (truthy public)).

(** [p.get("description") or f"Mirror of {full_path} from {GITLAB_URL}"] *)
Definition description_of (p full_path : json) : M W json :=
  let* d := get p "description" JNull in
  if truthy d then ret d
  else ret (JStr ("Mirror of " +:+ str full_path +:+ " from " +:+ GITLAB_URL cfg)).

(** Steps 2 and 3 of the loop body: the destination repository, the
    [github] remote and the mirror push. *)
Definition main_push (p full_path proj_name : json) (local_dir : string)
    : M W outcome :=
  let gh_repo_name := proj_name in
  let* created :=
    try_except
      (let* description := description_of p full_path in
       let* private := private_flag p in
       let* gh_url := create_github_repo gh_repo_name description private in
       ret (inr gh_url))
      (fun e =>
         print ("Failed to create GitHub repo for " +:+ str full_path +:+
                ": " +:+ exception_str e) ;;
         ret (inl e)) in
  match created with
  | inl e => ret (Skipped (CreateError e))
  | inr gh_url =>
      print ("GitHub repo URL: " +:+ str gh_url) ;;
      run "git remote remove github" (Some local_dir) ;;
      let* added :=
        run ("git remote add github " +:+ dquote +:+ str gh_url +:+ dquote)
            (Some local_dir) in
      if negb (added =? 0) then
        print ("Failed to add github remote for " +:+ str full_path) ;;
        ret (Skipped RemoteAddError)
      else
        let* pushed := run "git push --mirror github" (Some local_dir) in
        if negb (pushed =? 0) then
          print ("Mirror push failed for " +:+ str full_path) ;;
          ret (Skipped PushError)
        else
          sleep 1 ;;
          ret Completed
  end.

(** Step 1 of the loop body: clone the mirror, or fetch into it. *)
Definition main_sync (p full_path proj_name http_url : json) : M W outcome :=
  print (newline +:+ "=== Processing " +:+ str full_path +:+ " ===") ;;
  let* local_dir := local_mirror full_path in
  let* present := path_exists local_dir in
  if negb present then
    makedirs (OsPath.dirname local_dir) ;;
    let* cloned := run (clone_cmd http_url local_dir) None in
    if negb (cloned =? 0) then
      print ("Skipping " +:+ str full_path +:+ " due to clone error") ;;
      ret (Skipped CloneError)
    else main_push p full_path proj_name local_dir
  else
    print ("Local mirror exists for " +:+ str full_path +:+ ", fetching updates") ;;
    let* fetched := run "git fetch --all --prune" (Some local_dir) in
    if negb (fetched =? 0) then
      print ("Skipping " +:+ str full_path +:+ " due to fetch error") ;;
      ret (Skipped FetchError)
    else main_push p full_path proj_name local_dir.

(** The body of [for p in projects]. *)
Definition main_body (p : json) : M W outcome :=
  let* full_path := subscript p "path_with_namespace" in
  let* proj_name := subscript p "path" in
  let* http_url := subscript p "http_url_to_repo" in
  let* archived := get p "archived" JNull in
  if truthy archived then
    print ("Skipping archived project " +:+ str full_path) ;;
    ret (Skipped Archived)
  else main_sync p full_path proj_name http_url.

(** [for p in projects: ...], with the way each iteration ended. *)
Fixpoint main_loop (projects : list json) : M W (list outcome) :=
  match projects with
  | [] => ret []
  | p :: rest =>
      let* o := main_body p in
      let* os := main_loop rest in
      ret (o :: os)
  end.

Definition main (fuel : nat) : M W (list outcome) :=
  let* projects := list_all_gitlab_projects fuel in
  print ("Found " +:+ pretty (length projects) +:+ " GitLab projects") ;;
  main_loop projects.

End Script.

(** *** The module body: configuration, then [main()] *)

(** Truth value of [os.environ.get(name)]: [None] and [""] are false. *)
Definition env_truthy (v : option string) : bool :=
  match v with
  | Some s => PyStr.nonempty s
  | None => false
  end.

Definition script {W : Type} (host : Host W) (environ : gmap string string)
    (fuel : nat) : M W (list outcome) :=
  let gitlab_url := PyStr.rstrip "/" (default "" (environ !! "GITLAB_URL")) in
  let gitlab_token := environ !! "GITLAB_TOKEN" in
  let github_org := environ !! "GITHUB_ORG" in
  let github_token := environ !! "GITHUB_TOKEN" in
  let clone_base := default "./gitlab-mirror" (environ !! "CLONE_BASE") in
  if negb (forallb id [PyStr.nonempty gitlab_url; env_truthy gitlab_token;
                       env_truthy github_org; env_truthy github_token])
  then
    print "Missing one of GITLAB_URL, GITLAB_TOKEN, GITHUB_ORG, GITHUB_TOKEN env vars" ;;
    sys_exit 1
  else
    let cfg := Config gitlab_url (default "" gitlab_token) (default "" github_org)
                      (default "" github_token) clone_base in
    makedirs host clone_base ;;
    main host cfg fuel.

End Mirror.
Export Mirror.

(* ================================================================== *)
(** ** Vocabulary of the statements *)
(* ================================================================== *)

Module Props.

(** A project descriptor that the loop body can read: an object with the
    three fields that [main] indexes. *)
Definition readable (p : json) (full_path proj_name http_url : json) : Prop :=
  exists members,
    p = JObj members /\
    Json.lookup "path_with_namespace" members = Some full_path /\
    Json.lookup "path" members = Some proj_name /\
    Json.lookup "http_url_to_repo" members = Some http_url.

(** A descriptor as the listing gives it: readable, with a string for
    its full namespace path. *)
Definition descriptor (p : json) : Prop :=
  exists full_path proj_name http_url,
    readable p (JStr full_path) proj_name http_url.

(** [p.get(key, default)] once [p] is known to be an object. *)
Definition field (key : string) (default : json) (p : json) : json :=
  match p with
  | JObj members => from_option id default (Json.lookup key members)
  | _ => default
  end.

(** The URL and headers of the listing call. *)
Definition listing_url (cfg : config) : string :=
  GITLAB_URL cfg +:+ "/api/v4/projects".
Definition listing_headers (cfg : config) : list (string * string) :=
  [("PRIVATE-TOKEN", GITLAB_TOKEN cfg)].

(** [serves host cfg page w batches w']: from world [w], a client that
    asks for the pages [page], [page + 1], ... in turn is answered with
    the successful responses whose bodies are the arrays [batches], and
    the world is then [w']. *)
Inductive serves {W : Type} (host : Host W) (cfg : config)
    : nat -> W -> list (list json) -> W -> Prop :=
| serves_nil page w : serves host cfg page w [] w
| serves_cons page w r w1 items batches w2 :
    requests_get host (listing_url cfg) (listing_headers cfg)
                 (list_params page) w = (w1, inr r) ->
    is_error (status_code r) = false ->
    body r = Some (JArr items) ->
    serves host cfg (S page) w1 batches w2 ->
    serves host cfg page w (items :: batches) w2.

(** The listing calls for the pages [first], ..., [first + n - 1]. *)
Definition listing_calls (cfg : config) (first n : nat) : list event :=
  List.map (fun page => HttpGet (listing_url cfg) (listing_headers cfg)
                                (list_params page))
           (seq first n).

(** The lengths of the pauses in a trace, in order. *)
Fixpoint pauses (t : list event) : list Z :=
  match t with
  | [] => []
  | Sleep seconds :: t' => seconds :: pauses t'
  | _ :: t' => pauses t'
  end.

(** The [private] members of the bodies posted in a trace, in order. *)
Fixpoint posted_private (t : list event) : list (option json) :=
  match t with
  | [] => []
  | HttpPost _ _ (JObj members) :: t' =>
      Json.lookup "private" members :: posted_private t'
  | HttpPost _ _ _ :: t' => None :: posted_private t'
  | _ :: t' => posted_private t'
  end.

(** The commands run in a trace, in order. *)
Fixpoint commands (t : list event) : list (string * option string) :=
  match t with
  | [] => []
  | Run cmd cwd _ :: t' => (cmd, cwd) :: commands t'
  | _ :: t' => commands t'
  end.

(** The commands run in a trace with what each answered, in order. *)
Fixpoint runs (t : list event)
    : list (string * option string * (exception + Z)) :=
  match t with
  | [] => []
  | Run cmd cwd answer :: t' => (cmd, cwd, answer) :: runs t'
  | _ :: t' => runs t'
  end.

(** The requests posted in a trace, in order. *)
Fixpoint posts (t : list event) : list event :=
  match t with
  | [] => []
  | HttpPost url headers payload :: t' => HttpPost url headers payload :: posts t'
  | _ :: t' => posts t'
  end.

(** What a call of [run] leaves in the trace when the command is
    answered with [answer]: the line that shows the command, the
    command, and the line that reports a status other than 0. *)
Definition run_log (cmd : string) (cwd : option string)
    (answer : exception + Z) : list event :=
  Print (newline +:+ ">> " +:+ cmd) :: Run cmd cwd answer ::
  match answer with
  | inr returncode =>
      if negb (returncode =? 0)
      then [Print ("Command failed with code " +:+ pretty returncode)]
      else []
  | inl _ => []
  end.

Arguments run_log : simpl never.

(** How a call ends on an answer of the host. *)
Definition answered {A : Type} (answer : exception + A) : result A :=
  match answer with
  | inr a => Return a
  | inl e => Raise e
  end.

(** The iterations that get as far as the destination: all but those
    skipped for an archived project or a failed clone or fetch. *)
Definition reaches_destination (o : outcome) : bool :=
  match o with
  | Skipped Archived | Skipped CloneError | Skipped FetchError => false
  | _ => true
  end.

(** The directory of the mirror of the project at [full_path]. *)
Definition mirror_dir (cfg : config) (full_path : string) : string :=
  OsPath.join (CLONE_BASE cfg) (mirror_name full_path).

(** [wp m w Q]: run from the world [w], the computation [m] leaves a
    world, a trace and a result that satisfy [Q]. *)
Definition wp {W A : Type} (m : M W A) (w : W)
    (Q : W -> list event -> result A -> Prop) : Prop :=
  Q (world_of (m w)) (trace_of (m w)) (result_of (m w)).

Definition is_separator (c : ascii) : bool :=
  Ascii.eqb c "/" || Ascii.eqb c "_".

(** No slash or underscore of [s] stands next to another one. *)
Fixpoint isolated (s : string) : bool :=
  match s with
  | EmptyString => true
  | String c s' =>
      negb (is_separator c &&
            match s' with
            | String d _ => is_separator d
            | EmptyString => false
            end) && isolated s'
  end.

(** A run with the events [t] put before its own. *)
Definition preceded {W A : Type} (t : list event)
    (x : W * list event * result A) : W * list event * result A :=
  (world_of x, (t ++ trace_of x)%list, result_of x).

(** A run of the rest of the loop, after the events [t] and the outcomes
    [os] of the iterations before it. *)
Definition continued {W : Type} (t : list event) (os : list outcome)
    (x : W * list event * result (list outcome))
    : W * list event * result (list outcome) :=
  (world_of x, (t ++ trace_of x)%list,
   match result_of x with
   | Return os' => Return (os ++ os')%list
   | Raise e => Raise e
   | Exit c => Exit c
   | Diverge => Diverge
   end).

(** The description that [main] passes to [create_github_repo]. *)
Definition description_for (cfg : config) (p full_path : json) : json :=
  if truthy (field "description" JNull p)
  then field "description" JNull p
  else JStr ("Mirror of " +:+ str full_path +:+ " from " +:+ GITLAB_URL cfg).

(** The creation call of [main] for the descriptor [p]. *)
Definition creation (cfg : config) (p full_path proj_name : json) : event :=
  HttpPost (repos_url cfg) (github_headers cfg)
    (repo_payload proj_name (description_for cfg p full_path)
                  (negb (truthy (field "public" (JBool false) p)))).

Definition remote_add_cmd (gh_url : json) : string :=
  "git remote add github " +:+ dquote +:+ str gh_url +:+ dquote.

(** Step 1 of an iteration succeeds from the world [w]: the mirror is
    there and the fetch in it returns 0, or it is not there, its parent
    directory is made and the clone returns 0.  [t] are the events of
    the step and [w'] is the world that it leaves. *)
Definition synced {W : Type} (host : Host W) (cfg : config) (path : string)
    (http_url : json) (w : W) (t : list event) (w' : W) : Prop :=
  if os_path_exists host (mirror_dir cfg path) w then
    subprocess_run host "git fetch --all --prune" (Some (mirror_dir cfg path)) w =
      (w', inr 0) /\
    t = Print ("Local mirror exists for " +:+ path +:+ ", fetching updates") ::
        run_log "git fetch --all --prune" (Some (mirror_dir cfg path)) (inr 0)
  else
    exists w0,
      os_makedirs host (OsPath.dirname (mirror_dir cfg path)) w = (w0, inr tt) /\
      subprocess_run host (clone_cmd http_url (mirror_dir cfg path)) None w0 =
        (w', inr 0) /\
      t = Makedirs (OsPath.dirname (mirror_dir cfg path)) (inr tt) ::
          run_log (clone_cmd http_url (mirror_dir cfg path)) None (inr 0).

End Props.
Export Props.

(* ================================================================== *)
(** ** A small outside world to run the script in *)
(* ================================================================== *)

Module Fixture.

(** The destination keeps the names of the repositories it holds, the
    disk the paths that exist. *)
Record world : Type := World {
  repos : gset string;
  paths : gset string
}.

Definition page_of (params : list (string * json)) : nat :=
  match Json.lookup "page" params with
  | Some (JNum n) => Z.to_nat n
  | _ => 0
  end.

(** The source answers page [n] with the [n]-th element of [listing],
    and with an empty array past its end. *)
Definition source (listing : list json) (url : string)
    (headers : list (string * string)) (params : list (string * json))
    (w : world) : world * (exception + response) :=
  (w, inr (Response 200 "" (Some (nth (page_of params - 1) listing (JArr []))))).

(** A destination that refuses the names of [forbidden] with status 403,
    creates a repository unless it holds one of that name, and reports
    clone URLs under its own spelling [org] of the organisation. *)
Definition destination (org : string) (forbidden : list string) (url : string)
    (headers : list (string * string)) (payload : json)
    (w : world) : world * (exception + response) :=
  match payload with
  | JObj members =>
      match Json.lookup "name" members with
      | Some (JStr name) =>
          if existsb (String.eqb name) forbidden then
            (w, inr (Response 403 "Forbidden" None))
          else if bool_decide (name ∈ repos w) then
            (w, inr (Response 422
                       "Repository creation failed: name already exists on this account"
                       None))
          else
            (World ({[name]} ∪ repos w) (paths w),
             inr (Response 201 ""
                    (Some (JObj [("clone_url",
                                  JStr ("https://github.com/" +:+ org +:+ "/" +:+
                                        name +:+ ".git"))]))))
      | _ => (w, inr (Response 400 "" None))
      end
  | _ => (w, inr (Response 400 "" None))
  end.

(** A destination that answers every call with [r]. *)
Definition answering (r : response) (url : string)
    (headers : list (string * string)) (payload : json)
    (w : world) : world * (exception + response) :=
  (w, inr r).

(** [git] fails with status 128 on the commands of [failing]. *)
Definition git (failing : list string) (cmd : string) (cwd : option string)
    (w : world) : world * (exception + Z) :=
  (w, inr (if existsb (String.eqb cmd) failing then 128 else 0)).

(** A disk that makes every directory it is asked for. *)
Definition mkdir (path : string) (w : world) : world * (exception + unit) :=
  (World (repos w) ({[path]} ∪ paths w), inr tt).

Definition mock (listing : list json)
    (post : string -> list (string * string) -> json ->
            world -> world * (exception + response))
    (failing : list string) : Host world :=
  {| requests_get := source listing;
     requests_post := post;
     subprocess_run := git failing;
     os_path_exists := fun path w => bool_decide (path ∈ paths w);
     os_makedirs := mkdir;
     time_sleep := fun _ w => w |}.

Definition cfg : config :=
  Config "https://gitlab.example" "glpat-1" "acme" "ghp-1" "./gitlab-mirror".

Definition empty : world := World ∅ ∅.

Definition project (full_path leaf : string) (extra : list (string * json)) : json :=
  JObj ([("path_with_namespace", JStr full_path);
         ("path", JStr leaf);
         ("http_url_to_repo", JStr ("https://gitlab.example/" +:+ full_path +:+ ".git"))]
        ++ extra)%list.

Definition alpha : json :=
  project "team/alpha" "alpha" [("archived", JBool false); ("public", JBool true)].
Definition beta : json :=
  project "team/beta" "beta" [("archived", JBool true)].
Definition gamma : json :=
  project "team/gamma" "gamma" [].
Definition delta : json :=
  project "team/delta" "delta" [].
Definition epsilon : json :=
  project "team/epsilon" "epsilon" [("public", JStr "no")].

(** One page of three projects; the destination refuses [delta]. *)
Definition refusing : Host world :=
  mock [JArr [alpha; delta; gamma]] (destination "acme" ["delta"]) [].

(** A full page and a short one. *)
Definition paged : Host world :=
  mock [JArr (repeat alpha 100); JArr [beta; gamma]] (destination "acme" []) [].

(** A source that lists one project twice. *)
Definition doubled : Host world :=
  mock [JArr [alpha; alpha]] (destination "acme" []) [].

(** A destination that spells the organisation as the script does. *)
Definition plain : Host world :=
  mock [] (destination "acme" []) [].

(** A destination that spells the organisation [Acme]. *)
Definition respelling : Host world :=
  mock [] (destination "Acme" []) [].

(** A destination that answers 304 with an empty body. *)
Definition unmodified : Host world :=
  mock [] (answering (Response 304 "" None)) [].

(** A disk on which every path that exists is a plain file: a command
    cannot be started in it, [subprocess.run] raises
    [NotADirectoryError]. *)
Definition git_among_files (cmd : string) (cwd : option string)
    (w : world) : world * (exception + Z) :=
  match cwd with
  | Some dir =>
      if bool_decide (dir ∈ paths w)
      then (w, inl (OSError "NotADirectoryError"))
      else (w, inr 0)
  | None => (w, inr 0)
  end.

(** One page of three projects, on such a disk. *)
Definition broken : Host world :=
  {| requests_get := source [JArr [alpha; gamma; delta]];
     requests_post := destination "acme" [];
     subprocess_run := git_among_files;
     os_path_exists := fun path w => bool_decide (path ∈ paths w);
     os_makedirs := fun path w => (w, inr tt);
     time_sleep := fun _ w => w |}.

(** The same page, with a [git] that works. *)
Definition working : Host world :=
  mock [JArr [alpha; gamma; delta]] (destination "acme" []) [].

(** A disk that holds a stale file where the mirror of [gamma] goes. *)
Definition stale : world :=
  World ∅ {["./gitlab-mirror/team__gamma.git"]}.

(** A disk on which nothing can be made. *)
Definition read_only : Host world :=
  {| requests_get := source [JArr [alpha]];
     requests_post := destination "acme" [];
     subprocess_run := git [];
     os_path_exists := fun path w => bool_decide (path ∈ paths w);
     os_makedirs := fun path w => (w, inl (OSError "PermissionError"));
     time_sleep := fun _ w => w |}.

(** Two projects of different groups with one leaf name. *)
Definition utils1 : json := project "one/utils" "utils" [].
Definition utils2 : json := project "two/utils" "utils" [].

(** A [git] that cannot clone [one/utils]. *)
Definition unreachable : Host world :=
  mock [] (destination "acme" [])
       [clone_cmd (JStr "https://gitlab.example/one/utils.git")
                  "./gitlab-mirror/one__utils.git"].

(** An environment whose [GITLAB_URL] is made of slashes. *)
Definition slashes : gmap string string :=
  <["GITLAB_URL" := "///"]> (<["GITLAB_TOKEN" := "glpat-1"]>
    (<["GITHUB_ORG" := "acme"]> (<["GITHUB_TOKEN" := "ghp-1"]> ∅))).

End Fixture.

(* ================================================================== *)
(** ** Vocabulary of the statements about the rest of the script *)
(* ================================================================== *)

Module Behaviour.

(** The events of a trace other than console output, in order. *)
Fixpoint effects (t : list event) : list event :=
  match t with
  | [] => []
  | Print _ :: t' => effects t'
  | e :: t' => e :: effects t'
  end.

(** The exception that an answer to a request makes [gitlab_get] raise. *)
Definition refusal (answer : exception + response) : option exception :=
  match answer with
  | inl e => Some e
  | inr r => if is_error (status_code r) then Some (HTTPError (status_code r)) else None
  end.

(** A run of the mirror push that returned 0. *)
Definition pushed (x : string * option string * (exception + Z)) : bool :=
  match x with
  | (cmd, _, inr returncode) =>
      String.eqb cmd "git push --mirror github" && (returncode =? 0)
  | _ => false
  end.

(** The first command of a trace returned 0. *)
Definition first_succeeded (t : list event) : bool :=
  match head (runs t) with
  | Some (_, _, inr 0) => true
  | _ => false
  end.

Definition completed (o : outcome) : bool :=
  match o with
  | Completed => true
  | Skipped _ => false
  end.

(** The first of the three fields indexed by [main] that an object lacks. *)
Definition first_missing (members : list (string * json)) : option string :=
  match Json.lookup "path_with_namespace" members with
  | None => Some "path_with_namespace"
  | Some _ =>
      match Json.lookup "path" members with
      | None => Some "path"
      | Some _ =>
          match Json.lookup "http_url_to_repo" members with
          | None => Some "http_url_to_repo"
          | Some _ => None
          end
      end
  end.

(** A source that serves a full page of [alpha], then answers page 2
    with status 500. *)
Definition failing_source : Host Fixture.world :=
  {| requests_get := fun url headers params w =>
       if (Fixture.page_of params =? 1)%nat
       then (w, inr (Response 200 "" (Some (JArr (repeat Fixture.alpha 100)))))
       else (w, inr (Response 500 "Internal Server Error" None));
     requests_post := Fixture.destination "acme" [];
     subprocess_run := Fixture.git [];
     os_path_exists := fun path w => bool_decide (path ∈ Fixture.paths w);
     os_makedirs := Fixture.mkdir;
     time_sleep := fun _ w => w |}.

(** A source whose every page is full. *)
Definition endless_source : Host Fixture.world :=
  {| requests_get := fun url headers params w =>
       (w, inr (Response 200 "" (Some (JArr (repeat Fixture.alpha 100)))));
     requests_post := Fixture.destination "acme" [];
     subprocess_run := Fixture.git [];
     os_path_exists := fun path w => bool_decide (path ∈ Fixture.paths w);
     os_makedirs := Fixture.mkdir;
     time_sleep := fun _ w => w |}.

(** A destination that answers 201 with an object without [clone_url]. *)
Definition silent : Host Fixture.world :=
  Fixture.mock [] (Fixture.answering (Response 201 "" (Some (JObj [])))) [].

(** A source whose first page is [null]. *)
Definition null_source : Host Fixture.world :=
  Fixture.mock [JNull] (Fixture.destination "acme" []) [].

(** A descriptor without the field [path]. *)
Definition zeta : json :=
  JObj [("path_with_namespace", JStr "team/zeta");
        ("http_url_to_repo", JStr "https://gitlab.example/team/zeta.git");
        ("archived", JBool true)].

(** A descriptor whose full path is a number. *)
Definition eta : json :=
  JObj [("path_with_namespace", JNum 7);
        ("path", JStr "eta");
        ("http_url_to_repo", JStr "https://gitlab.example/team/eta.git")].

(** A complete environment, with a trailing slash on the URL. *)
Definition complete : gmap string string :=
  <["GITLAB_URL" := "https://gitlab.example/"]> (<["GITLAB_TOKEN" := "glpat-1"]>
    (<["GITHUB_ORG" := "acme"]> (<["GITHUB_TOKEN" := "ghp-1"]> ∅))).

End Behaviour.
Export Behaviour.

(* ================================================================== *)
(** ** Facts about the string operations *)
(* ================================================================== *)

Section StringFacts.

Local Open Scope nat_scope.

Lemma app_cons (c : ascii) (s t : string) :
  String c s +:+ t = String c (s +:+ t).
Proof. reflexivity. Qed.

Lemma app_empty_l (t : string) : "" +:+ t = t.
Proof. reflexivity. Qed.

Lemma length_app (s t : string) :
  String.length (s +:+ t) = String.length s + String.length t.
Proof.
  induction s as [|c s IH]; [reflexivity|].
  rewrite app_cons. simpl. now rewrite IH.
Qed.

Lemma app_inv_tail (s t u : string) : s +:+ u = t +:+ u -> s = t.
Proof.
  revert t. induction s as [|c s IH]; intros [|d t] H.
  - reflexivity.
  - apply (f_equal String.length) in H.
    rewrite app_empty_l, app_cons in H. simpl in H.
    rewrite length_app in H. lia.
  - apply (f_equal String.length) in H.
    rewrite app_empty_l, app_cons in H. simpl in H.
    rewrite length_app in H. lia.
  - rewrite !app_cons in H. injection H as -> H.
    f_equal. now apply IH.
Qed.

Lemma has_char_app (c : ascii) (s t : string) :
  PyStr.has_char c (s +:+ t) = PyStr.has_char c s || PyStr.has_char c t.
Proof.
  induction s as [|a s IH]; [reflexivity|].
  rewrite app_cons. simpl. rewrite IH. now rewrite orb_assoc.
Qed.

Lemma startswith_has_char (c : ascii) (s : string) :
  PyStr.startswith (String c "") s = true -> PyStr.has_char c s = true.
Proof.
  destruct s as [|a s]; simpl; [discriminate|].
  rewrite andb_true_r, Ascii.eqb_sym. intros ->. reflexivity.
Qed.

Lemma rstrip_all_char (c : ascii) (s : string) :
  PyStr.all_char c s = true -> PyStr.rstrip c s = "".
Proof.
  induction s as [|a s IH]; simpl; [reflexivity|].
  intros [Ha Hs]%andb_true_iff. rewrite (IH Hs), Ha. reflexivity.
Qed.

Lemma replace_flat (s : string) :
  PyStr.has_char "/" (PyStr.replace "/" "__" s) = false.
Proof.
  induction s as [|c s IH]; simpl; [reflexivity|].
  destruct (Ascii.eqb c "/") eqn:E.
  - rewrite has_char_app, IH. reflexivity.
  - simpl. now rewrite E, IH.
Qed.

Lemma mirror_name_flat (s : string) :
  PyStr.has_char "/" (mirror_name s) = false.
Proof.
  unfold mirror_name. rewrite has_char_app, replace_flat. reflexivity.
Qed.

(** The first character of an encoded path tells how the path starts. *)
Lemma replace_head_separator (s : string) (r : string) :
  PyStr.replace "/" "__" s = String "_" r ->
  exists c s', s = String c s' /\ is_separator c = true.
Proof.
  destruct s as [|c s]; simpl; [discriminate|].
  destruct (Ascii.eqb c "/") eqn:E.
  - intros _. exists c, s. unfold is_separator. now rewrite E.
  - intros [= -> _]. exists "_"%char, s. split; reflexivity.
Qed.

Lemma replace_inj (a b : string) :
  isolated a = true -> isolated b = true ->
  PyStr.replace "/" "__" a = PyStr.replace "/" "__" b -> a = b.
Proof.
  revert b. induction a as [|c a IH]; intros [|d b] Ha Hb H.
  - reflexivity.
  - simpl in H. destruct (Ascii.eqb d "/"); discriminate.
  - simpl in H. destruct (Ascii.eqb c "/"); discriminate.
  - simpl in Ha, Hb.
    apply andb_true_iff in Ha as [Ha1 Ha2].
    apply andb_true_iff in Hb as [Hb1 Hb2].
    simpl in H.
    destruct (Ascii.eqb c "/") eqn:Ec, (Ascii.eqb d "/") eqn:Ed.
    + apply Ascii.eqb_eq in Ec, Ed. subst c d.
      rewrite !app_cons, !app_empty_l in H. injection H as H.
      f_equal. now apply IH.
    + apply Ascii.eqb_eq in Ec. subst c.
      rewrite !app_cons, !app_empty_l in H. injection H as Hd H. subst d.
      symmetry in H. apply replace_head_separator in H as (e & b' & -> & He).
      simpl in Hb1. rewrite He in Hb1. discriminate.
    + apply Ascii.eqb_eq in Ed. subst d.
      rewrite !app_cons, !app_empty_l in H. injection H as Hc H. subst c.
      apply replace_head_separator in H as (e & a' & -> & He).
      simpl in Ha1. rewrite He in Ha1. discriminate.
    + injection H as -> H. f_equal. now apply IH.
Qed.

End StringFacts.

(* ================================================================== *)
(** ** The local mirror directory *)
(* ================================================================== *)

Section MirrorName.
Context {W : Type} (host : Host W) (cfg : config).

Lemma join_mirror_name (base s : string) :
  exists prefix,
    (forall s', OsPath.join base (mirror_name s') = prefix +:+ mirror_name s') /\
    OsPath.join base (mirror_name s) = prefix +:+ mirror_name s.
Proof.
  assert (forall s', PyStr.startswith "/" (mirror_name s') = false) as Hno.
  { intros s'. destruct (PyStr.startswith "/" (mirror_name s')) eqn:E; [|reflexivity].
    apply startswith_has_char in E. now rewrite mirror_name_flat in E. }
  unfold OsPath.join.
  destruct (negb (PyStr.nonempty base) || PyStr.endswith "/" base).
  - exists base. split; [intros s'|]; now rewrite Hno.
  - exists (base +:+ "/"). split; [intros s'|]; rewrite Hno;
      clear; induction base as [|c base IH]; try reflexivity;
      rewrite !app_cons; now f_equal.
Qed.

(** C5, as amended.  For every full namespace path, the directory of the
    project's mirror is a function of [CLONE_BASE] and of that path
    alone: [local_mirror] returns it, the same at every call, without an
    effect and whatever the world is; and its last component, the name
    of the mirror, contains no slash.  Two distinct paths get distinct
    names and distinct directories when, in both, no slash or underscore
    stands next to another slash or underscore. *)
Theorem local_mirror_flat_and_distinct (a : string) (w : W) :
  local_mirror cfg (JStr a) w =
    (w, [], Return (OsPath.join (CLONE_BASE cfg) (mirror_name a))) /\
  (forall w' : W, result_of (local_mirror cfg (JStr a) w') =
              result_of (local_mirror cfg (JStr a) w)) /\
  PyStr.has_char "/" (mirror_name a) = false /\
  (exists prefix,
     OsPath.join (CLONE_BASE cfg) (mirror_name a) = prefix +:+ mirror_name a) /\
  forall b,
    a <> b -> isolated a = true -> isolated b = true ->
    mirror_name a <> mirror_name b /\
    OsPath.join (CLONE_BASE cfg) (mirror_name a) <>
    OsPath.join (CLONE_BASE cfg) (mirror_name b).
Proof.
  split; [reflexivity|]. split; [reflexivity|].
  split; [apply mirror_name_flat|].
  destruct (join_mirror_name (CLONE_BASE cfg) a) as (prefix & Hall & Ha).
  split; [exists prefix; exact Ha|].
  intros b Hab Hia Hib.
  assert (mirror_name a <> mirror_name b) as Hname.
  { intros H. apply Hab. unfold mirror_name in H.
    apply app_inv_tail in H. now apply replace_inj. }
  split; [exact Hname|].
  rewrite !Hall. intros H. apply Hname.
  now apply (String.app_inj prefix) in H.
Qed.

End MirrorName.

(** The theorem at ["group/sub/project"] and a sibling of it. *)
Lemma local_mirror_flat_and_distinct_witness :
  local_mirror Fixture.cfg (JStr "group/sub/project") Fixture.empty =
    (Fixture.empty, [],
     Return (OsPath.join (CLONE_BASE Fixture.cfg) (mirror_name "group/sub/project"))) /\
  PyStr.has_char "/" (mirror_name "group/sub/project") = false /\
  mirror_name "group/sub/project" <> mirror_name "group/sub_project" /\
  OsPath.join (CLONE_BASE Fixture.cfg) (mirror_name "group/sub/project") <>
  OsPath.join (CLONE_BASE Fixture.cfg) (mirror_name "group/sub_project").
Proof.
  destruct (local_mirror_flat_and_distinct Fixture.cfg "group/sub/project"
              Fixture.empty) as (Hfun & _ & Hflat & _ & Hdistinct).
  split; [exact Hfun|]. split; [exact Hflat|].
  apply (Hdistinct "group/sub_project").
  - discriminate.
  - reflexivity.
  - reflexivity.
Defined.

(** C5 as stated fails: the project [a__b] of group [g] and the project [b]
    of group [g__a] are different projects with one mirror directory. *)
Lemma mirror_name_collision :
  "g/a__b" <> "g__a/b" /\
  mirror_name "g/a__b" = mirror_name "g__a/b" /\
  OsPath.join (CLONE_BASE Fixture.cfg) (mirror_name "g/a__b") =
  OsPath.join (CLONE_BASE Fixture.cfg) (mirror_name "g__a/b").
Proof. split; [discriminate|]. split; reflexivity. Qed.

(* ================================================================== *)
(** ** The start-up check *)
(* ================================================================== *)

(** C8.  When [GITLAB_URL] is absent, empty or made of slashes only, the
    script prints the message about missing configuration and exits with
    status 1; nothing else happens and the world is as it was. *)
Theorem script_exits_on_slash_only_url {W : Type} (host : Host W)
    (environ : gmap string string) (fuel : nat) (w : W) :
  PyStr.all_char "/" (default "" (environ !! "GITLAB_URL")) = true ->
  script host environ fuel w =
    (w,
     [Print "Missing one of GITLAB_URL, GITLAB_TOKEN, GITHUB_ORG, GITHUB_TOKEN env vars"],
     Exit 1) /\
  exit_status (result_of (script host environ fuel w)) = Some 1.
Proof.
  intros H. unfold script. rewrite (rstrip_all_char _ _ H). simpl.
  split; reflexivity.
Qed.

Lemma script_exits_on_slash_only_url_witness :
  script Fixture.plain Fixture.slashes 1 Fixture.empty =
    (Fixture.empty,
     [Print "Missing one of GITLAB_URL, GITLAB_TOKEN, GITHUB_ORG, GITHUB_TOKEN env vars"],
     Exit 1) /\
  exit_status (result_of (script Fixture.plain Fixture.slashes 1 Fixture.empty)) = Some 1.
Proof.
  apply (script_exits_on_slash_only_url Fixture.plain Fixture.slashes 1 Fixture.empty).
  vm_compute. reflexivity.
Defined.

(* ================================================================== *)
(** ** Reasoning rules for computations *)
(* ================================================================== *)

Section Rules.
Context {W : Type}.

Lemma wp_eq {A} (m : M W A) (w w' : W) (t : list event) (r : result A)
    (Q : W -> list event -> result A -> Prop) :
  m w = (w', t, r) -> Q w' t r -> wp m w Q.
Proof. unfold wp. intros ->. exact id. Qed.

Lemma wp_at {A} (m : M W A) (w w' : W) (t : list event) (r : result A)
    (Q : W -> list event -> result A -> Prop) :
  m w = (w', t, r) -> wp m w Q -> Q w' t r.
Proof. unfold wp. intros ->. exact id. Qed.

Lemma wp_ret {A} (a : A) (w : W) (Q : W -> list event -> result A -> Prop) :
  Q w [] (Return a) -> wp (ret a) w Q.
Proof. exact id. Qed.

Lemma wp_raise {A} (e : exception) (w : W)
    (Q : W -> list event -> result A -> Prop) :
  Q w [] (Raise e) -> wp (raise e) w Q.
Proof. exact id. Qed.

Lemma wp_emit (e : event) (w : W) (Q : W -> list event -> result unit -> Prop) :
  Q w [e] (Return tt) -> wp (emit e) w Q.
Proof. exact id. Qed.

Lemma wp_bind {A B} (m : M W A) (k : A -> M W B) (w : W)
    (Q : W -> list event -> result B -> Prop) :
  wp m w (fun w1 t1 r1 =>
            match r1 with
            | Return a => wp (k a) w1 (fun w2 t2 r2 => Q w2 (t1 ++ t2)%list r2)
            | Raise e => Q w1 t1 (Raise e)
            | Exit c => Q w1 t1 (Exit c)
            | Diverge => Q w1 t1 Diverge
            end) ->
  wp (bind m k) w Q.
Proof.
  unfold wp, bind, world_of, trace_of, result_of.
  destruct (m w) as [[w1 t1] [a|e|c|]]; simpl; try exact id.
  destruct (k a w1) as [[w2 t2] r2]. exact id.
Qed.

Lemma wp_try_except {A} (m : M W A) (h : exception -> M W A) (w : W)
    (Q : W -> list event -> result A -> Prop) :
  wp m w (fun w1 t1 r1 =>
            match r1 with
            | Raise e => wp (h e) w1 (fun w2 t2 r2 => Q w2 (t1 ++ t2)%list r2)
            | other => Q w1 t1 other
            end) ->
  wp (try_except m h) w Q.
Proof.
  unfold wp, try_except, world_of, trace_of, result_of.
  destruct (m w) as [[w1 t1] [a|e|c|]]; simpl; try exact id.
  destruct (h e w1) as [[w2 t2] r2]. exact id.
Qed.

Lemma pauses_app (t1 t2 : list event) :
  pauses (t1 ++ t2) = (pauses t1 ++ pauses t2)%list.
Proof.
  induction t1 as [|e t1 IH]; [reflexivity|].
  destruct e; simpl; rewrite IH; reflexivity.
Qed.

Lemma posted_private_app (t1 t2 : list event) :
  posted_private (t1 ++ t2) = (posted_private t1 ++ posted_private t2)%list.
Proof.
  induction t1 as [|e t1 IH]; [reflexivity|].
  destruct e as [| | ? ? payload | | |]; simpl; try (rewrite IH; reflexivity).
  destruct payload; simpl; rewrite IH; reflexivity.
Qed.

Lemma commands_app (t1 t2 : list event) :
  commands (t1 ++ t2) = (commands t1 ++ commands t2)%list.
Proof.
  induction t1 as [|e t1 IH]; [reflexivity|].
  destruct e; simpl; rewrite IH; reflexivity.
Qed.

Lemma runs_app (t1 t2 : list event) :
  runs (t1 ++ t2) = (runs t1 ++ runs t2)%list.
Proof.
  induction t1 as [|e t1 IH]; [reflexivity|].
  destruct e; simpl; rewrite IH; reflexivity.
Qed.

Lemma posts_app (t1 t2 : list event) :
  posts (t1 ++ t2) = (posts t1 ++ posts t2)%list.
Proof.
  induction t1 as [|e t1 IH]; [reflexivity|].
  destruct e; simpl; rewrite IH; reflexivity.
Qed.

Lemma posted_private_posts (t : list event) :
  posted_private (posts t) = posted_private t.
Proof.
  induction t as [|e t IH]; [reflexivity|].
  destruct e as [| | ? ? payload | | |]; simpl; try exact IH.
  destruct payload; simpl; now rewrite IH.
Qed.

Lemma effects_app (t1 t2 : list event) :
  effects (t1 ++ t2) = (effects t1 ++ effects t2)%list.
Proof.
  induction t1 as [|e t1 IH]; [reflexivity|].
  destruct e; simpl; rewrite IH; reflexivity.
Qed.

(** The summaries of the log of one command. *)
Lemma pauses_run_log (cmd : string) (cwd : option string) (a : exception + Z) :
  pauses (run_log cmd cwd a) = [].
Proof.
  unfold run_log. destruct a as [e|rc]; [reflexivity|]. simpl.
  now destruct (rc =? 0).
Qed.

Lemma posted_private_run_log (cmd : string) (cwd : option string)
    (a : exception + Z) :
  posted_private (run_log cmd cwd a) = [].
Proof.
  unfold run_log. destruct a as [e|rc]; [reflexivity|]. simpl.
  now destruct (rc =? 0).
Qed.

Lemma posts_run_log (cmd : string) (cwd : option string) (a : exception + Z) :
  posts (run_log cmd cwd a) = [].
Proof.
  unfold run_log. destruct a as [e|rc]; [reflexivity|]. simpl.
  now destruct (rc =? 0).
Qed.

Lemma commands_run_log (cmd : string) (cwd : option string) (a : exception + Z) :
  commands (run_log cmd cwd a) = [(cmd, cwd)].
Proof.
  unfold run_log. destruct a as [e|rc]; [reflexivity|]. simpl.
  now destruct (rc =? 0).
Qed.

Lemma runs_run_log (cmd : string) (cwd : option string) (a : exception + Z) :
  runs (run_log cmd cwd a) = [(cmd, cwd, a)].
Proof.
  unfold run_log. destruct a as [e|rc]; [reflexivity|]. simpl.
  now destruct (rc =? 0).
Qed.

Lemma effects_run_log (cmd : string) (cwd : option string) (a : exception + Z) :
  effects (run_log cmd cwd a) = [Run cmd cwd a].
Proof.
  unfold run_log. destruct a as [e|rc]; [reflexivity|]. simpl.
  now destruct (rc =? 0).
Qed.

Lemma wp_exact {A} (m : M W A) (w : W) (x : W * list event * result A) :
  wp m w (fun w' t r => (w', t, r) = x) -> m w = x.
Proof.
  unfold wp, world_of, trace_of, result_of.
  now destruct (m w) as [[w' t] r].
Qed.

Lemma last_app_r {A} (l1 l2 : list A) (x : A) :
  last l2 = Some x -> last (l1 ++ l2) = Some x.
Proof. intros H. apply last_app_Some. now left. Qed.

Lemma last_cons_some {A} (x y : A) (l : list A) :
  last l = Some y -> last (x :: l) = Some y.
Proof. intros H. rewrite last_cons, H. reflexivity. Qed.

Lemma last_run_log_raised (cmd : string) (cwd : option string) (e : exception) :
  last (run_log cmd cwd (inl e)) = Some (Run cmd cwd (inl e)).
Proof. reflexivity. Qed.

End Rules.

(** One step of a computation: split a sequence, run a primitive. *)
Ltac wp_step :=
  lazymatch goal with
  | |- wp (bind _ _) _ _ => apply wp_bind
  | |- wp (ret _) _ _ => apply wp_ret
  | |- wp (raise _) _ _ => apply wp_raise
  | |- wp (print _) _ _ => apply wp_emit
  | |- wp (emit _) _ _ => apply wp_emit
  | |- wp (try_except _ _) _ _ => apply wp_try_except
  end; cbv beta iota.

(** Summaries of a trace built by appending. *)
Create Rewrite HintDb trace.
#[global] Hint Rewrite @pauses_app @posted_private_app @commands_app @runs_app
  @posts_app @effects_app pauses_run_log posted_private_run_log posts_run_log
  commands_run_log runs_run_log effects_run_log : trace.

Ltac trace_simpl :=
  repeat (autorewrite with trace;
          cbn [pauses posted_private commands runs posts effects app]);
  repeat match goal with
         | H : pauses _ = _ |- _ => rewrite H
         | H : posted_private _ = _ |- _ => rewrite H
         | H : commands _ = _ |- _ => rewrite H
         | H : runs _ = _ |- _ => rewrite H
         | H : posts _ = _ |- _ => rewrite H
         | H : effects _ = _ |- _ => rewrite H
         end;
  cbn [pauses posted_private commands runs posts effects app].

(* ================================================================== *)
(** ** Running the helpers *)
(* ================================================================== *)

Section Helpers.
Context {W : Type} (host : Host W) (cfg : config).

(** [run] prints the command, runs it, reports a status other than 0
    and hands the status back; an exception of [subprocess.run] passes
    through it. *)
Lemma run_answered (cmd : string) (cwd : option string) (w w' : W)
    (a : exception + Z) :
  subprocess_run host cmd cwd w = (w', a) ->
  run host cmd cwd w = (w', run_log cmd cwd a, answered a).
Proof.
  intros H. unfold run, bind, print, emit, subprocess, ret, run_log, answered.
  rewrite H. destruct a as [e|rc]; [reflexivity|].
  simpl. destruct (rc =? 0); reflexivity.
Qed.

Lemma description_of_exact (members : list (string * json)) (full_path : json) (w : W) :
  description_of cfg (JObj members) full_path w =
    (w, [], Return (description_for cfg (JObj members) full_path)).
Proof.
  unfold description_of, description_for, bind, get, ret, field.
  destruct (Json.lookup "description" members) as [d|]; cbn [from_option id].
  - destruct (truthy d); reflexivity.
  - reflexivity.
Qed.

Lemma private_flag_eq (members : list (string * json)) (w : W) :
  private_flag (JObj members) w =
    (w, [], Return (negb (truthy (field "public" (JBool false) (JObj members))))).
Proof.
  unfold private_flag, bind, get, ret, field.
  destruct (Json.lookup "public" members); reflexivity.
Qed.

(** A call of [create_github_repo] posts once, with the body built from
    its arguments, runs no command, never pauses, and returns or
    raises. *)
Lemma create_github_repo_ends (name description : json) (private : bool) (w : W) :
  (trace_of (create_github_repo host cfg name description private w) =
     [HttpPost (repos_url cfg) (github_headers cfg)
               (repo_payload name description private)] \/
   trace_of (create_github_repo host cfg name description private w) =
     [HttpPost (repos_url cfg) (github_headers cfg)
               (repo_payload name description private);
      Print ("GitHub repo " +:+ str name +:+ " already exists, reusing.")]) /\
  match result_of (create_github_repo host cfg name description private w) with
  | Return _ | Raise _ => True
  | _ => False
  end.
Proof.
  unfold create_github_repo, bind, http_post, raise_for_status,
    response_json, subscript, print, emit, ret, raise, trace_of, result_of.
  destruct (requests_post _ _ _ _ _) as [w1 [e|r]]; simpl; [now auto|].
  destruct (name_conflict r); simpl; [now auto|].
  destruct (is_error _); simpl; [now auto|].
  destruct (body r) as [data|]; simpl; [|now auto].
  destruct data as [| | | | |fields]; simpl; try now auto.
  destruct (Json.lookup _ fields); simpl; now auto.
Qed.

End Helpers.

(* ================================================================== *)
(** ** One iteration of the loop of [main] *)
(* ================================================================== *)

(** The last event of a trace built by appending. *)
Ltac last_solve :=
  repeat lazymatch goal with
         | |- last (_ ++ _) = _ => apply last_app_r
         | |- last (_ :: _ :: _) = _ => rewrite last_cons_cons
         | |- last (_ :: (_ ++ _)) = _ => apply last_cons_some
         | |- last (_ :: run_log _ _ _) = _ => apply last_cons_some
         end;
  first [ reflexivity | apply last_run_log_raised | eassumption ].

Section Iteration.
Context {W : Type} (host : Host W) (cfg : config).

(** Steps 2 and 3 by the answers of the host: the creation call, then
    the three commands, each run in the world that the one before left. *)
Lemma main_push_eq (members : list (string * json)) (full_path proj_name : json)
    (dir : string) (w : W) :
  main_push host cfg (JObj members) full_path proj_name dir w =
    match create_github_repo host cfg proj_name
            (description_for cfg (JObj members) full_path)
            (negb (truthy (field "public" (JBool false) (JObj members)))) w with
    | (w1, tc, Return gh_url) =>
        match subprocess_run host "git remote remove github" (Some dir) w1 with
        | (w2, inl e) =>
            (w2,
             (tc ++ Print ("GitHub repo URL: " +:+ str gh_url) ::
              run_log "git remote remove github" (Some dir) (inl e))%list,
             Raise e)
        | (w2, inr rc2) =>
            match subprocess_run host (remote_add_cmd gh_url) (Some dir) w2 with
            | (w3, inl e) =>
                (w3,
                 (tc ++ Print ("GitHub repo URL: " +:+ str gh_url) ::
                  run_log "git remote remove github" (Some dir) (inr rc2) ++
                  run_log (remote_add_cmd gh_url) (Some dir) (inl e))%list,
                 Raise e)
            | (w3, inr rc3) =>
                if negb (rc3 =? 0) then
                  (w3,
                   (tc ++ Print ("GitHub repo URL: " +:+ str gh_url) ::
                    run_log "git remote remove github" (Some dir) (inr rc2) ++
                    run_log (remote_add_cmd gh_url) (Some dir) (inr rc3) ++
                    [Print ("Failed to add github remote for " +:+ str full_path)])%list,
                   Return (Skipped RemoteAddError))
                else
                  match subprocess_run host "git push --mirror github" (Some dir) w3 with
                  | (w4, inl e) =>
                      (w4,
                       (tc ++ Print ("GitHub repo URL: " +:+ str gh_url) ::
                        run_log "git remote remove github" (Some dir) (inr rc2) ++
                        run_log (remote_add_cmd gh_url) (Some dir) (inr rc3) ++
                        run_log "git push --mirror github" (Some dir) (inl e))%list,
                       Raise e)
                  | (w4, inr rc4) =>
                      if negb (rc4 =? 0) then
                        (w4,
                         (tc ++ Print ("GitHub repo URL: " +:+ str gh_url) ::
                          run_log "git remote remove github" (Some dir) (inr rc2) ++
                          run_log (remote_add_cmd gh_url) (Some dir) (inr rc3) ++
                          run_log "git push --mirror github" (Some dir) (inr rc4) ++
                          [Print ("Mirror push failed for " +:+ str full_path)])%list,
                         Return (Skipped PushError))
                      else
                        (time_sleep host 1 w4,
                         (tc ++ Print ("GitHub repo URL: " +:+ str gh_url) ::
                          run_log "git remote remove github" (Some dir) (inr rc2) ++
                          run_log (remote_add_cmd gh_url) (Some dir) (inr rc3) ++
                          run_log "git push --mirror github" (Some dir) (inr rc4) ++
                          [Sleep 1])%list,
                         Return Completed)
                  end
            end
        end
    | (w1, tc, Raise e) =>
        (w1,
         (tc ++ [Print ("Failed to create GitHub repo for " +:+ str full_path +:+
                        ": " +:+ exception_str e)])%list,
         Return (Skipped (CreateError e)))
    | (w1, tc, Exit c) => (w1, tc, Exit c)
    | (w1, tc, Diverge) => (w1, tc, Diverge)
    end.
Proof.
  apply wp_exact. unfold main_push.
  wp_step. wp_step. wp_step.
  eapply wp_eq; [apply description_of_exact|]. cbv beta iota.
  wp_step. eapply wp_eq; [apply private_flag_eq|]. cbv beta iota.
  wp_step. unfold wp at 1.
  destruct (create_github_repo _ _ _ _ _ _) as [[w1 tc] [gh_url|e|c|]];
    unfold world_of, trace_of, result_of; cbn [fst snd].
  - wp_step. cbv beta iota. wp_step. wp_step. wp_step.
    fold (remote_add_cmd gh_url).
    destruct (subprocess_run host "git remote remove github" (Some dir) w1)
      as [w2 [e|rc2]] eqn:H2;
      (eapply wp_eq; [apply (run_answered _ _ _ _ _ _ H2)|]); cbn [answered];
      [now rewrite !app_nil_r|].
    wp_step.
    destruct (subprocess_run host (remote_add_cmd gh_url) (Some dir) w2)
      as [w3 [e|rc3]] eqn:H3;
      (eapply wp_eq; [apply (run_answered _ _ _ _ _ _ H3)|]); cbn [answered];
      [now rewrite !app_nil_r, <- !app_assoc|].
    destruct (negb (rc3 =? 0)).
    + wp_step. wp_step. wp_step. now rewrite !app_nil_r, <- !app_assoc.
    + wp_step.
      destruct (subprocess_run host "git push --mirror github" (Some dir) w3)
        as [w4 [e|rc4]] eqn:H4;
        (eapply wp_eq; [apply (run_answered _ _ _ _ _ _ H4)|]); cbn [answered];
        [now rewrite !app_nil_r, <- !app_assoc|].
      destruct (negb (rc4 =? 0)).
      * wp_step. wp_step. wp_step. now rewrite !app_nil_r, <- !app_assoc.
      * wp_step. eapply wp_eq; [reflexivity|]. cbv beta iota. wp_step.
        now rewrite !app_nil_r, <- !app_assoc.
  - wp_step. wp_step. wp_step. cbv beta iota. wp_step.
    now rewrite !app_nil_r.
  - reflexivity.
  - reflexivity.
Qed.

(** Step 1 by the answers of the host. *)
Lemma main_sync_eq (p : json) (path : string) (proj_name http_url : json) (w : W) :
  main_sync host cfg p (JStr path) proj_name http_url w =
    if os_path_exists host (mirror_dir cfg path) w then
      match subprocess_run host "git fetch --all --prune"
              (Some (mirror_dir cfg path)) w with
      | (w1, inl e) =>
          (w1,
           Print (newline +:+ "=== Processing " +:+ path +:+ " ===") ::
           Print ("Local mirror exists for " +:+ path +:+ ", fetching updates") ::
           run_log "git fetch --all --prune" (Some (mirror_dir cfg path)) (inl e),
           Raise e)
      | (w1, inr rc) =>
          if negb (rc =? 0) then
            (w1,
             Print (newline +:+ "=== Processing " +:+ path +:+ " ===") ::
             Print ("Local mirror exists for " +:+ path +:+ ", fetching updates") ::
             (run_log "git fetch --all --prune" (Some (mirror_dir cfg path)) (inr rc) ++
              [Print ("Skipping " +:+ path +:+ " due to fetch error")])%list,
             Return (Skipped FetchError))
          else
            preceded
              (Print (newline +:+ "=== Processing " +:+ path +:+ " ===") ::
               Print ("Local mirror exists for " +:+ path +:+ ", fetching updates") ::
               run_log "git fetch --all --prune" (Some (mirror_dir cfg path)) (inr rc))
              (main_push host cfg p (JStr path) proj_name (mirror_dir cfg path) w1)
      end
    else
      match os_makedirs host (OsPath.dirname (mirror_dir cfg path)) w with
      | (w0, inl e) =>
          (w0,
           [Print (newline +:+ "=== Processing " +:+ path +:+ " ===");
            Makedirs (OsPath.dirname (mirror_dir cfg path)) (inl e)],
           Raise e)
      | (w0, inr u) =>
          match subprocess_run host (clone_cmd http_url (mirror_dir cfg path))
                  None w0 with
          | (w1, inl e) =>
              (w1,
               Print (newline +:+ "=== Processing " +:+ path +:+ " ===") ::
               Makedirs (OsPath.dirname (mirror_dir cfg path)) (inr tt) ::
               run_log (clone_cmd http_url (mirror_dir cfg path)) None (inl e),
               Raise e)
          | (w1, inr rc) =>
              if negb (rc =? 0) then
                (w1,
                 Print (newline +:+ "=== Processing " +:+ path +:+ " ===") ::
                 Makedirs (OsPath.dirname (mirror_dir cfg path)) (inr tt) ::
                 (run_log (clone_cmd http_url (mirror_dir cfg path)) None (inr rc) ++
                  [Print ("Skipping " +:+ path +:+ " due to clone error")])%list,
                 Return (Skipped CloneError))
              else
                preceded
                  (Print (newline +:+ "=== Processing " +:+ path +:+ " ===") ::
                   Makedirs (OsPath.dirname (mirror_dir cfg path)) (inr tt) ::
                   run_log (clone_cmd http_url (mirror_dir cfg path)) None (inr rc))
                  (main_push host cfg p (JStr path) proj_name (mirror_dir cfg path) w1)
          end
      end.
Proof.
  apply wp_exact. unfold main_sync.
  wp_step. wp_step. wp_step.
  eapply wp_eq; [reflexivity|]. cbv beta iota. fold (mirror_dir cfg path).
  wp_step. unfold path_exists at 1. unfold wp at 1, world_of, trace_of, result_of.
  cbn [fst snd].
  destruct (os_path_exists host (mirror_dir cfg path) w); cbn [negb].
  - wp_step. wp_step. wp_step.
    destruct (subprocess_run host "git fetch --all --prune"
                (Some (mirror_dir cfg path)) w) as [w1 [e|rc]] eqn:H1;
      (eapply wp_eq; [apply (run_answered _ _ _ _ _ _ H1)|]); cbn [answered];
      [reflexivity|].
    destruct (negb (rc =? 0)).
    + wp_step. wp_step. wp_step. reflexivity.
    + unfold wp, preceded. reflexivity.
  - wp_step. unfold wp at 1, makedirs, world_of, trace_of, result_of.
    destruct (os_makedirs host (OsPath.dirname (mirror_dir cfg path)) w)
      as [w0 [e|[]]]; cbn [fst snd]; [reflexivity|].
    wp_step.
    destruct (subprocess_run host (clone_cmd http_url (mirror_dir cfg path)) None w0)
      as [w1 [e|rc]] eqn:H1;
      (eapply wp_eq; [apply (run_answered _ _ _ _ _ _ H1)|]); cbn [answered];
      [reflexivity|].
    destruct (negb (rc =? 0)).
    + wp_step. wp_step. wp_step. reflexivity.
    + unfold wp, preceded. reflexivity.
Qed.

(** The [continue] of an archived project. *)
Lemma main_body_archived (p full_path proj_name http_url : json) (w : W) :
  readable p full_path proj_name http_url ->
  truthy (field "archived" JNull p) = true ->
  main_body host cfg p w =
    (w, [Print ("Skipping archived project " +:+ str full_path)],
     Return (Skipped Archived)).
Proof.
  intros (members & -> & H1 & H2 & H3) Ha.
  unfold main_body, bind, subscript, get. rewrite H1, H2, H3.
  unfold field in Ha.
  destruct (Json.lookup "archived" members) as [v|];
    cbn [from_option id] in Ha; [|discriminate].
  cbv beta iota delta [ret]. rewrite Ha. reflexivity.
Qed.

(** Any other project goes on to the sync of its mirror. *)
Lemma main_body_live (p full_path proj_name http_url : json) (w : W) :
  readable p full_path proj_name http_url ->
  truthy (field "archived" JNull p) = false ->
  main_body host cfg p w = main_sync host cfg p full_path proj_name http_url w.
Proof.
  intros (members & -> & H1 & H2 & H3) Ha.
  unfold main_body, bind, subscript, get. rewrite H1, H2, H3.
  unfold field in Ha.
  destruct (Json.lookup "archived" members) as [v|]; cbn [from_option id] in Ha;
    cbv beta iota delta [ret]; [rewrite Ha|cbn [truthy]];
    destruct (main_sync _ _ _ _ _ _ _) as [[w' t] r]; reflexivity.
Qed.

(** Step 1 succeeded: the iteration goes on with steps 2 and 3. *)
Lemma main_sync_synced (p : json) (path : string) (proj_name http_url : json)
    (w w1 : W) (t1 : list event) :
  synced host cfg path http_url w t1 w1 ->
  main_sync host cfg p (JStr path) proj_name http_url w =
    preceded (Print (newline +:+ "=== Processing " +:+ path +:+ " ===") :: t1)
      (main_push host cfg p (JStr path) proj_name (mirror_dir cfg path) w1).
Proof.
  unfold synced. intros H. rewrite main_sync_eq.
  destruct (os_path_exists host (mirror_dir cfg path) w).
  - destruct H as [-> ->]. reflexivity.
  - destruct H as (w0 & -> & -> & ->). reflexivity.
Qed.

End Iteration.
(* ================================================================== *)
(** ** The loop of [main] *)
(* ================================================================== *)

Section Loop.
Context {W : Type} (host : Host W) (cfg : config).

(** The loop goes on after an iteration that returns, whatever its
    outcome, and ends with an iteration that does not. *)
Lemma main_loop_cons_eq (p : json) (rest : list json) (w : W) :
  main_loop host cfg (p :: rest) w =
    match main_body host cfg p w with
    | (w1, t1, Return o) => continued t1 [o] (main_loop host cfg rest w1)
    | (w1, t1, Raise e) => (w1, t1, Raise e)
    | (w1, t1, Exit c) => (w1, t1, Exit c)
    | (w1, t1, Diverge) => (w1, t1, Diverge)
    end.
Proof.
  cbn [main_loop]. unfold bind at 1.
  destruct (main_body host cfg p w) as [[w1 t1] [o|e|c|]]; try reflexivity.
  unfold bind, continued, world_of, trace_of, result_of.
  destruct (main_loop host cfg rest w1) as [[w2 t2] [os|e|c|]]; cbn [fst snd ret];
    rewrite ?app_nil_r; reflexivity.
Qed.

Lemma continued_continued (t1 t2 : list event) (os1 os2 : list outcome)
    (x : W * list event * result (list outcome)) :
  continued t1 os1 (continued t2 os2 x) = continued (t1 ++ t2) (os1 ++ os2) x.
Proof.
  destruct x as [[w t] [os|e|c|]];
    unfold continued, world_of, trace_of, result_of; cbn [fst snd];
    rewrite <- ?app_assoc; reflexivity.
Qed.

Lemma main_loop_app_eq (before rest : list json) (w : W) :
  main_loop host cfg (before ++ rest) w =
    match main_loop host cfg before w with
    | (w1, t1, Return os1) => continued t1 os1 (main_loop host cfg rest w1)
    | other => other
    end.
Proof.
  revert w. induction before as [|p before IH]; intros w.
  - cbn [app main_loop ret]. unfold continued, world_of, trace_of, result_of.
    destruct (main_loop host cfg rest w) as [[w' t] [os|e|c|]]; reflexivity.
  - change ((p :: before) ++ rest)%list with (p :: (before ++ rest))%list.
    rewrite !main_loop_cons_eq.
    destruct (main_body host cfg p w) as [[w1 t1] [o|e|c|]]; try reflexivity.
    rewrite IH.
    destruct (main_loop host cfg before w1) as [[w2 t2] [os|e|c|]];
      try reflexivity.
    unfold continued at 3. unfold world_of, trace_of, result_of. cbn [fst snd].
    now rewrite continued_continued.
Qed.

(** The loop up to an iteration that returns. *)
Lemma main_loop_through (before after : list json) (p : json) (w w1 w2 : W)
    (t1 t2 : list event) (os1 : list outcome) (o : outcome) :
  main_loop host cfg before w = (w1, t1, Return os1) ->
  main_body host cfg p w1 = (w2, t2, Return o) ->
  main_loop host cfg (before ++ p :: after) w =
    continued (t1 ++ t2) (os1 ++ [o]) (main_loop host cfg after w2).
Proof.
  intros Hb Hp. rewrite main_loop_app_eq, Hb, main_loop_cons_eq, Hp.
  apply continued_continued.
Qed.

(** The loop up to an iteration that raises. *)
Lemma main_loop_app_raise (before after : list json) (p : json) (w w1 w2 : W)
    (t1 t2 : list event) (os1 : list outcome) (e : exception) :
  main_loop host cfg before w = (w1, t1, Return os1) ->
  main_body host cfg p w1 = (w2, t2, Raise e) ->
  main_loop host cfg (before ++ p :: after) w = (w2, (t1 ++ t2)%list, Raise e).
Proof.
  intros Hb Hp. rewrite main_loop_app_eq, Hb, main_loop_cons_eq, Hp.
  reflexivity.
Qed.

End Loop.

(* ================================================================== *)
(** ** What every iteration adds up to *)
(* ================================================================== *)

Lemma pushed_remote_add (gh_url : json) (cwd : option string) (a : exception + Z) :
  pushed (remote_add_cmd gh_url, cwd, a) = false.
Proof. destruct a; reflexivity. Qed.

Lemma pushed_clone (http_url : json) (dir : string) (cwd : option string)
    (a : exception + Z) :
  pushed (clone_cmd http_url dir, cwd, a) = false.
Proof. destruct a; reflexivity. Qed.

Lemma pushed_remove (cwd : option string) (a : exception + Z) :
  pushed ("git remote remove github", cwd, a) = false.
Proof. destruct a; reflexivity. Qed.

Lemma pushed_fetch (cwd : option string) (a : exception + Z) :
  pushed ("git fetch --all --prune", cwd, a) = false.
Proof. destruct a; reflexivity. Qed.

Lemma pushed_raised (cmd : string) (cwd : option string) (e : exception) :
  pushed (cmd, cwd, inl e) = false.
Proof. reflexivity. Qed.

Lemma pushed_push (cwd : option string) (rc : Z) :
  pushed ("git push --mirror github", cwd, inr rc) = (rc =? 0).
Proof. reflexivity. Qed.

(** A conjunction of facts about an explicit trace. *)
Ltac summary_leaf :=
  unfold world_of, trace_of, result_of; cbn [fst snd];
  repeat match goal with
         | |- _ /\ _ => split
         end;
  try discriminate; try reflexivity;
  try (eexists; last_solve);
  try (left; do 2 eexists; last_solve);
  try (right; eexists; last_solve);
  try last_solve;
  trace_simpl;
  repeat (rewrite ?pushed_remote_add, ?pushed_clone, ?pushed_remove,
            ?pushed_fetch, ?pushed_raised, ?pushed_push;
          cbn [List.filter app]);
  try reflexivity.

Section Summary.
Context {W : Type} (host : Host W) (cfg : config).

(** Steps 2 and 3, whatever the host answers. *)
Lemma main_push_summary (members : list (string * json)) (full_path proj_name : json)
    (dir : string) (w : W) :
  wp (main_push host cfg (JObj members) full_path proj_name dir) w
    (fun _ t r =>
       posts t = [creation cfg (JObj members) full_path proj_name] /\
       List.filter pushed (runs t) =
         match r with
         | Return Completed => [("git push --mirror github", Some dir, inr 0)]
         | _ => []
         end /\
       pauses t = match r with Return Completed => [1] | _ => [] end /\
       match r with
       | Return Completed => last t = Some (Sleep 1)
       | Return (Skipped _) => exists line, last t = Some (Print line)
       | Raise e =>
           (exists cmd cwd, last t = Some (Run cmd cwd (inl e))) \/
           (exists path, last t = Some (Makedirs path (inl e)))
       | _ => False
       end /\
       match r with
       | Return o => reaches_destination o = true
       | Raise _ => True
       | _ => False
       end).
Proof.
  unfold wp. rewrite main_push_eq.
  destruct (create_github_repo_ends host cfg proj_name
              (description_for cfg (JObj members) full_path)
              (negb (truthy (field "public" (JBool false) (JObj members)))) w)
    as [Htc Hrc].
  destruct (create_github_repo _ _ _ _ _ _) as [[w1 tc] rc].
  unfold trace_of, result_of in Htc, Hrc. cbn [fst snd] in Htc, Hrc.
  destruct rc as [gh_url|e|c|]; try contradiction.
  - destruct (subprocess_run host "git remote remove github" (Some dir) w1)
      as [w2 [e|rc2]].
    { destruct Htc as [-> | ->]; summary_leaf. }
    destruct (subprocess_run host (remote_add_cmd gh_url) (Some dir) w2)
      as [w3 [e|rc3]].
    { destruct Htc as [-> | ->]; summary_leaf. }
    destruct (negb (rc3 =? 0)).
    { destruct Htc as [-> | ->]; summary_leaf. }
    destruct (subprocess_run host "git push --mirror github" (Some dir) w3)
      as [w4 [e|rc4]].
    { destruct Htc as [-> | ->]; summary_leaf. }
    destruct (Z.eqb_spec rc4 0) as [->|Hrc4]; cbn [negb].
    + destruct Htc as [-> | ->]; summary_leaf.
    + apply Z.eqb_neq in Hrc4.
      destruct Htc as [-> | ->]; summary_leaf; rewrite Hrc4; reflexivity.
  - destruct Htc as [-> | ->]; summary_leaf.
Qed.

Lemma first_succeeded_head (cmd : string) (cwd : option string) (rc : Z)
    (rest : list (string * option string * (exception + Z))) (t : list event) :
  runs t = (cmd, cwd, inr rc) :: rest ->
  first_succeeded t = (rc =? 0).
Proof.
  intros H. unfold first_succeeded. rewrite H. cbn [head]. now destruct rc.
Qed.

Lemma first_succeeded_app (cmd : string) (cwd : option string) (rc : Z)
    (t1 t2 : list event) :
  runs t1 = [(cmd, cwd, inr rc)] ->
  first_succeeded (t1 ++ t2) = (rc =? 0).
Proof.
  intros H. unfold first_succeeded. rewrite runs_app, H. cbn [app head].
  now destruct rc.
Qed.

(** One iteration on a readable descriptor, whatever the host answers. *)
Lemma main_body_summary (p : json) (path : string) (proj_name http_url : json)
    (w : W) :
  readable p (JStr path) proj_name http_url ->
  wp (main_body host cfg p) w
    (fun _ t r =>
       List.filter pushed (runs t) =
         match r with
         | Return Completed =>
             [("git push --mirror github", Some (mirror_dir cfg path), inr 0)]
         | _ => []
         end /\
       pauses t = match r with Return Completed => [1] | _ => [] end /\
       match r with
       | Return Completed => last t = Some (Sleep 1)
       | Return (Skipped _) => exists line, last t = Some (Print line)
       | Raise e =>
           (exists cmd cwd, last t = Some (Run cmd cwd (inl e))) \/
           (exists path, last t = Some (Makedirs path (inl e)))
       | _ => False
       end /\
       posts t =
         (if first_succeeded t then [creation cfg p (JStr path) proj_name] else []) /\
       match r with
       | Return o =>
           first_succeeded t = reaches_destination o /\
           (o = Skipped Archived <-> truthy (field "archived" JNull p) = true)
       | Raise _ => truthy (field "archived" JNull p) = false
       | _ => False
       end /\
       (truthy (field "archived" JNull p) = false ->
        head t = Some (Print (newline +:+ "=== Processing " +:+ path +:+ " ===")))).
Proof.
  intros Hr. unfold wp.
  destruct (truthy (field "archived" JNull p)) eqn:Ha.
  { rewrite (main_body_archived host cfg _ _ _ _ w Hr Ha).
    summary_leaf. }
  rewrite (main_body_live host cfg _ _ _ _ w Hr Ha).
  destruct Hr as (members & -> & _).
  rewrite main_sync_eq.
  destruct (os_path_exists host (mirror_dir cfg path) w).
  - destruct (subprocess_run host "git fetch --all --prune"
                (Some (mirror_dir cfg path)) w) as [w1 [e|rc]].
    { summary_leaf. }
    destruct (Z.eqb_spec rc 0) as [->|Hrc]; cbn [negb].
    + pose proof (main_push_summary members (JStr path) proj_name
                    (mirror_dir cfg path) w1) as Hs.
      unfold wp in Hs.
      destruct (main_push _ _ _ _ _ _ _) as [[w2 t2] r2].
      unfold preceded, world_of, trace_of, result_of in *. cbn [fst snd] in *.
      destruct Hs as (Hposts & Hf & Hp & Hl & Hres).
      split; [|split; [|split; [|split; [|split]]]].
      * trace_simpl. cbn [List.filter]. rewrite pushed_fetch. exact Hf.
      * trace_simpl. reflexivity.
      * destruct r2 as [[|reason]|e|c|]; try contradiction.
        -- now apply last_app_r.
        -- destruct Hl as [line Hl]. exists line. now apply last_app_r.
        -- destruct Hl as [(cmd & cwd & Hl)|(dir & Hl)];
             [left; exists cmd, cwd | right; exists dir]; now apply last_app_r.
      * rewrite (first_succeeded_app "git fetch --all --prune"
                   (Some (mirror_dir cfg path)) 0); [|now trace_simpl].
        trace_simpl. reflexivity.
      * rewrite (first_succeeded_app "git fetch --all --prune"
                   (Some (mirror_dir cfg path)) 0); [|now trace_simpl].
        destruct r2 as [o|e|c|]; try contradiction; [|reflexivity].
        split; [now rewrite Hres|].
        split; [intros ->; discriminate | discriminate].
      * reflexivity.
    + apply Z.eqb_neq in Hrc. summary_leaf.
      * rewrite (first_succeeded_head "git fetch --all --prune"
                   (Some (mirror_dir cfg path)) rc []), Hrc;
          [reflexivity | now trace_simpl].
      * split; discriminate.
  - destruct (os_makedirs host (OsPath.dirname (mirror_dir cfg path)) w)
      as [w0 [e|u]].
    { summary_leaf. }
    destruct (subprocess_run host (clone_cmd http_url (mirror_dir cfg path)) None w0)
      as [w1 [e|rc]].
    { summary_leaf. }
    destruct (Z.eqb_spec rc 0) as [->|Hrc]; cbn [negb].
    + pose proof (main_push_summary members (JStr path) proj_name
                    (mirror_dir cfg path) w1) as Hs.
      unfold wp in Hs.
      destruct (main_push _ _ _ _ _ _ _) as [[w2 t2] r2].
      unfold preceded, world_of, trace_of, result_of in *. cbn [fst snd] in *.
      destruct Hs as (Hposts & Hf & Hp & Hl & Hres).
      split; [|split; [|split; [|split; [|split]]]].
      * trace_simpl. cbn [List.filter]. rewrite pushed_clone. exact Hf.
      * trace_simpl. reflexivity.
      * destruct r2 as [[|reason]|e|c|]; try contradiction.
        -- now apply last_app_r.
        -- destruct Hl as [line Hl]. exists line. now apply last_app_r.
        -- destruct Hl as [(cmd & cwd & Hl)|(dir & Hl)];
             [left; exists cmd, cwd | right; exists dir]; now apply last_app_r.
      * rewrite (first_succeeded_app (clone_cmd http_url (mirror_dir cfg path))
                   None 0); [|now trace_simpl].
        trace_simpl. reflexivity.
      * rewrite (first_succeeded_app (clone_cmd http_url (mirror_dir cfg path))
                   None 0); [|now trace_simpl].
        destruct r2 as [o|e|c|]; try contradiction; [|reflexivity].
        split; [now rewrite Hres|].
        split; [intros ->; discriminate | discriminate].
      * reflexivity.
    + apply Z.eqb_neq in Hrc. summary_leaf.
      * rewrite (first_succeeded_head (clone_cmd http_url (mirror_dir cfg path))
                   None rc []), Hrc;
          [reflexivity | now trace_simpl].
      * split; discriminate.
Qed.

End Summary.
(* ================================================================== *)
(** ** The listing *)
(* ================================================================== *)

Section Listing.
Context {W : Type} (host : Host W) (cfg : config).

Local Open Scope nat_scope.

(** One turn of the [while True] loop on a page that was served. *)
Lemma list_pages_step (fuel page : nat) (acc : list json) (w w1 : W)
    (r : response) (items : list json) :
  requests_get host (listing_url cfg) (listing_headers cfg)
               (list_params page) w = (w1, inr r) ->
  is_error (status_code r) = false ->
  body r = Some (JArr items) ->
  list_pages host cfg (S fuel) page acc w =
    if length items <? per_page
    then (w1, [HttpGet (listing_url cfg) (listing_headers cfg) (list_params page)],
          Return (acc ++ items)%list)
    else
      match list_pages host cfg fuel (S page) (acc ++ items)%list w1 with
      | (w2, t, res) =>
          (w2, HttpGet (listing_url cfg) (listing_headers cfg) (list_params page) :: t,
           res)
      end.
Proof.
  intros Hget Hok Hbody.
  cbn [list_pages].
  unfold bind at 1. unfold gitlab_get, bind at 1, http_get.
  change (GITLAB_URL cfg +:+ "/api/v4" +:+ "/projects") with (listing_url cfg).
  change [("PRIVATE-TOKEN", GITLAB_TOKEN cfg)] with (listing_headers cfg).
  cbn [from_option id]. rewrite Hget.
  unfold raise_for_status, bind at 1. rewrite Hok. cbn [ret].
  unfold bind at 1, response_json. rewrite Hbody. cbn [ret].
  destruct items as [|item items].
  - cbn [truthy negb length]. cbn [ret]. rewrite (app_nil_r acc). reflexivity.
  - cbn [truthy negb]. unfold bind at 1. cbn [extend ret].
    unfold bind at 1. cbn [len ret].
    destruct (length (item :: items) <? per_page).
    + reflexivity.
    + destruct (list_pages _ _ _ _ _ _) as [[w2 t] res]. reflexivity.
Qed.

(** Served the full pages [full] and then the short page [last], the
    loop asks for exactly these pages and returns their items in order. *)
Lemma list_pages_serves (full : list (list json)) (last : list json) :
  forall (fuel page : nat) (acc : list json) (w w' : W),
    serves host cfg page w (full ++ [last]) w' ->
    Forall (fun items => length items = per_page) full ->
    length last < per_page ->
    length full < fuel ->
    list_pages host cfg fuel page acc w =
      (w', listing_calls cfg page (length full + 1),
       Return (acc ++ concat full ++ last)%list).
Proof.
  induction full as [|items full IH]; intros fuel page acc w w' Hs Hfull Hlast Hfuel.
  - destruct fuel as [|fuel]; [simpl in Hfuel; lia|].
    inversion Hs as [|? ? r w1 ? ? ? Hget Hok Hbody Hrest]; subst.
    inversion Hrest; subst.
    rewrite (list_pages_step _ _ _ _ _ _ _ Hget Hok Hbody).
    apply Nat.ltb_lt in Hlast. rewrite Hlast. reflexivity.
  - destruct fuel as [|fuel]; [simpl in Hfuel; lia|].
    cbn [app] in Hs.
    inversion Hs as [|? ? r w1 ? ? ? Hget Hok Hbody Hrest]; subst.
    inversion Hfull as [|? ? Hlen Hfull']; subst.
    rewrite (list_pages_step _ _ _ _ _ _ _ Hget Hok Hbody).
    assert ((length items <? per_page) = false) as ->
      by (apply Nat.ltb_ge; lia).
    rewrite (IH fuel (S page) (acc ++ items)%list w1 w' Hrest Hfull' Hlast)
      by (simpl in Hfuel; lia).
    cbn [length concat]. unfold listing_calls. cbn [Nat.add seq List.map].
    now rewrite <- !app_assoc.
Qed.

End Listing.

(* ================================================================== *)
(** ** The claims about the listing *)
(* ================================================================== *)

Section ListingClaims.
Context {W : Type} (host : Host W) (cfg : config).

Local Open Scope nat_scope.

(** C1.  When the source serves the full pages [full] (100 items each)
    and then a first shorter page [last] (fewer than 100 items, possibly
    none), [list_all_gitlab_projects] asks for the pages 1, 2, ..., k
    with k = [length full + 1], once each and in this order, every time
    with [per_page] 100, [order_by] id and [sort] asc, makes no other
    call, and returns the items of the k pages in the order received. *)
Theorem list_all_gitlab_projects_pages (full : list (list json))
    (last : list json) (fuel : nat) (w w' : W) :
  serves host cfg 1 w (full ++ [last]) w' ->
  Forall (fun items => length items = per_page) full ->
  length last < per_page ->
  length full < fuel ->
  list_all_gitlab_projects host cfg fuel w =
    (w', listing_calls cfg 1 (length full + 1),
     Return (concat full ++ last)%list) /\
  length (listing_calls cfg 1 (length full + 1)) = length full + 1 /\
  forall page,
    Json.lookup "per_page" (list_params page) = Some (JNum 100) /\
    Json.lookup "page" (list_params page) = Some (JNum (Z.of_nat page)) /\
    Json.lookup "order_by" (list_params page) = Some (JStr "id") /\
    Json.lookup "sort" (list_params page) = Some (JStr "asc").
Proof.
  intros Hs Hfull Hlast Hfuel. split; [|split].
  - unfold list_all_gitlab_projects.
    now rewrite (list_pages_serves host cfg full last fuel 1 [] w w').
  - unfold listing_calls. now rewrite length_map, length_seq.
  - intros page. repeat split; reflexivity.
Qed.

(** C6, as amended.  [list_all_gitlab_projects] returns the items of the
    pages as they were served, without removing anything: the list it
    returns is free of duplicates exactly when the pages served are. *)
Theorem list_all_gitlab_projects_keeps_duplicates (full : list (list json))
    (last : list json) (fuel : nat) (w w' : W) :
  serves host cfg 1 w (full ++ [last]) w' ->
  Forall (fun items => length items = per_page) full ->
  length last < per_page ->
  length full < fuel ->
  exists projects,
    result_of (list_all_gitlab_projects host cfg fuel w) = Return projects /\
    projects = concat (full ++ [last]) /\
    (NoDup projects <-> NoDup (concat (full ++ [last]))).
Proof.
  intros Hs Hfull Hlast Hfuel.
  exists (concat (full ++ [last])). split; [|split; [reflexivity|tauto]].
  unfold list_all_gitlab_projects.
  rewrite (list_pages_serves host cfg full last fuel 1 [] w w') by assumption.
  rewrite concat_app. cbn [concat]. now rewrite app_nil_r.
Qed.

End ListingClaims.

Lemma serves_paged :
  serves Fixture.paged Fixture.cfg 1 Fixture.empty
    ([repeat Fixture.alpha 100] ++ [[Fixture.beta; Fixture.gamma]]) Fixture.empty.
Proof.
  eapply serves_cons; [reflexivity | reflexivity | reflexivity |].
  eapply serves_cons; [reflexivity | reflexivity | reflexivity |].
  apply serves_nil.
Qed.

Lemma list_all_gitlab_projects_pages_witness :
  list_all_gitlab_projects Fixture.paged Fixture.cfg 3 Fixture.empty =
    (Fixture.empty, listing_calls Fixture.cfg 1 2,
     Return (concat [repeat Fixture.alpha 100] ++ [Fixture.beta; Fixture.gamma])%list) /\
  length (listing_calls Fixture.cfg 1 2) = 2%nat /\
  forall page,
    Json.lookup "per_page" (list_params page) = Some (JNum 100) /\
    Json.lookup "page" (list_params page) = Some (JNum (Z.of_nat page)) /\
    Json.lookup "order_by" (list_params page) = Some (JStr "id") /\
    Json.lookup "sort" (list_params page) = Some (JStr "asc").
Proof.
  apply (list_all_gitlab_projects_pages Fixture.paged Fixture.cfg
           [repeat Fixture.alpha 100] [Fixture.beta; Fixture.gamma] 3
           Fixture.empty Fixture.empty).
  - exact serves_paged.
  - repeat constructor.
  - vm_compute. lia.
  - simpl. lia.
Defined.

Lemma list_all_gitlab_projects_keeps_duplicates_witness :
  exists projects,
    result_of (list_all_gitlab_projects Fixture.paged Fixture.cfg 3 Fixture.empty) =
      Return projects /\
    projects = concat ([repeat Fixture.alpha 100] ++ [[Fixture.beta; Fixture.gamma]]) /\
    (NoDup projects <->
     NoDup (concat ([repeat Fixture.alpha 100] ++ [[Fixture.beta; Fixture.gamma]]))).
Proof.
  apply (list_all_gitlab_projects_keeps_duplicates Fixture.paged Fixture.cfg
           [repeat Fixture.alpha 100] [Fixture.beta; Fixture.gamma] 3
           Fixture.empty Fixture.empty).
  - exact serves_paged.
  - repeat constructor.
  - vm_compute. lia.
  - simpl. lia.
Defined.

(** C6 as stated fails: a source that lists a project twice gets it back
    twice. *)
Lemma list_all_gitlab_projects_duplicate :
  result_of (list_all_gitlab_projects Fixture.doubled Fixture.cfg 3 Fixture.empty) =
    Return [Fixture.alpha; Fixture.alpha] /\
  ~ NoDup [Fixture.alpha; Fixture.alpha].
Proof.
  split; [reflexivity|].
  intros [Hn _]%NoDup_cons. apply Hn. left.
Qed.

(* ================================================================== *)
(** ** The claims about [create_github_repo] *)
(* ================================================================== *)

Section CreateClaims.
Context {W : Type} (host : Host W) (cfg : config).

Lemma create_github_repo_conflict (name description : json) (private : bool)
    (w w1 : W) (r : response) :
  requests_post host (repos_url cfg) (github_headers cfg)
                (repo_payload name description private) w = (w1, inr r) ->
  name_conflict r = true ->
  create_github_repo host cfg name description private w =
    (w1,
     [HttpPost (repos_url cfg) (github_headers cfg)
               (repo_payload name description private);
      Print ("GitHub repo " +:+ str name +:+ " already exists, reusing.")],
     Return (JStr (reused_url cfg name))).
Proof.
  intros Hpost Hc.
  unfold create_github_repo, bind at 1, http_post. rewrite Hpost, Hc.
  reflexivity.
Qed.

Lemma create_github_repo_error (name description : json) (private : bool)
    (w w1 : W) (r : response) :
  requests_post host (repos_url cfg) (github_headers cfg)
                (repo_payload name description private) w = (w1, inr r) ->
  name_conflict r = false ->
  is_error (status_code r) = true ->
  create_github_repo host cfg name description private w =
    (w1,
     [HttpPost (repos_url cfg) (github_headers cfg)
               (repo_payload name description private)],
     Raise (HTTPError (status_code r))).
Proof.
  intros Hpost Hc He.
  unfold create_github_repo, bind at 1, http_post. rewrite Hpost, Hc.
  unfold bind at 1, raise_for_status. rewrite He. reflexivity.
Qed.

Lemma create_github_repo_created (name description : json) (private : bool)
    (w w1 : W) (r : response) (members : list (string * json)) (url : json) :
  requests_post host (repos_url cfg) (github_headers cfg)
                (repo_payload name description private) w = (w1, inr r) ->
  name_conflict r = false ->
  is_error (status_code r) = false ->
  body r = Some (JObj members) ->
  Json.lookup "clone_url" members = Some url ->
  create_github_repo host cfg name description private w =
    (w1,
     [HttpPost (repos_url cfg) (github_headers cfg)
               (repo_payload name description private)],
     Return url).
Proof.
  intros Hpost Hc He Hb Hu.
  unfold create_github_repo, bind at 1, http_post. rewrite Hpost, Hc.
  unfold bind at 1, raise_for_status. rewrite He. cbn [ret].
  unfold bind at 1, response_json. rewrite Hb. cbn [ret].
  unfold subscript. rewrite Hu. reflexivity.
Qed.

(** C2, as amended.  Take two calls of [create_github_repo] with the
    same name, the second answered with status 422 and a body that says
    that the name already exists.  The second call returns the URL built
    from the organisation and the name, without raising.  The first call
    returns that same URL when it is answered with such a conflict too;
    answered with a success, it returns the [clone_url] of the response,
    so the two calls agree exactly when the destination reports the
    built URL.  A response with a status from 400 to 599 that is not
    such a conflict raises [HTTPError]. *)
Theorem create_github_repo_reuses_on_conflict (name d1 d2 : json)
    (p1 p2 : bool) (w0 w1 w2 : W) (r1 r2 : response) :
  requests_post host (repos_url cfg) (github_headers cfg)
                (repo_payload name d1 p1) w0 = (w1, inr r1) ->
  requests_post host (repos_url cfg) (github_headers cfg)
                (repo_payload name d2 p2) w1 = (w2, inr r2) ->
  status_code r2 = 422 ->
  PyStr.contains "name already exists" (text r2) = true ->
  create_github_repo host cfg name d2 p2 w1 =
    (w2,
     [HttpPost (repos_url cfg) (github_headers cfg) (repo_payload name d2 p2);
      Print ("GitHub repo " +:+ str name +:+ " already exists, reusing.")],
     Return (JStr (reused_url cfg name))) /\
  (status_code r1 = 422 ->
   PyStr.contains "name already exists" (text r1) = true ->
   result_of (create_github_repo host cfg name d1 p1 w0) =
     Return (JStr (reused_url cfg name))) /\
  (name_conflict r1 = false ->
   is_error (status_code r1) = false ->
   forall members url,
     body r1 = Some (JObj members) ->
     Json.lookup "clone_url" members = Some url ->
     result_of (create_github_repo host cfg name d1 p1 w0) = Return url /\
     (url = JStr (reused_url cfg name) <->
      result_of (create_github_repo host cfg name d1 p1 w0) =
      result_of (create_github_repo host cfg name d2 p2 w1))) /\
  (name_conflict r1 = false ->
   400 <= status_code r1 < 600 ->
   result_of (create_github_repo host cfg name d1 p1 w0) =
     Raise (HTTPError (status_code r1))).
Proof.
  intros Hpost1 Hpost2 Hs2 Ht2.
  assert (name_conflict r2 = true) as Hc2.
  { unfold name_conflict. rewrite Hs2, Ht2. reflexivity. }
  pose proof (create_github_repo_conflict name d2 p2 w1 w2 r2 Hpost2 Hc2) as Hsecond.
  split; [exact Hsecond|]. split; [|split].
  - intros Hs1 Ht1.
    rewrite (create_github_repo_conflict name d1 p1 w0 w1 r1 Hpost1); [reflexivity|].
    unfold name_conflict. rewrite Hs1, Ht1. reflexivity.
  - intros Hc1 He1 members url Hb Hu.
    rewrite (create_github_repo_created name d1 p1 w0 w1 r1 members url
               Hpost1 Hc1 He1 Hb Hu), Hsecond.
    unfold result_of. cbn [snd]. split; [reflexivity|].
    split; [intros ->; reflexivity | intros [= ->]; reflexivity].
  - intros Hc1 He1.
    rewrite (create_github_repo_error name d1 p1 w0 w1 r1 Hpost1 Hc1); [reflexivity|].
    unfold is_error. apply andb_true_iff. split; [apply Z.leb_le|apply Z.ltb_lt]; lia.
Qed.

End CreateClaims.

Lemma create_github_repo_reuses_on_conflict_witness :
  create_github_repo Fixture.plain Fixture.cfg (JStr "tool") (JStr "again") true
      (Fixture.World {["tool"]} ∅) =
    (Fixture.World {["tool"]} ∅,
     [HttpPost (repos_url Fixture.cfg) (github_headers Fixture.cfg)
               (repo_payload (JStr "tool") (JStr "again") true);
      Print ("GitHub repo " +:+ str (JStr "tool") +:+ " already exists, reusing.")],
     Return (JStr (reused_url Fixture.cfg (JStr "tool")))) /\
  result_of (create_github_repo Fixture.plain Fixture.cfg (JStr "tool") (JStr "first")
               true Fixture.empty) =
    Return (JStr (reused_url Fixture.cfg (JStr "tool"))).
Proof.
  assert (requests_post Fixture.plain (repos_url Fixture.cfg)
            (github_headers Fixture.cfg)
            (repo_payload (JStr "tool") (JStr "first") true) Fixture.empty =
          (Fixture.World {["tool"]} ∅,
           inr (Response 201 ""
                  (Some (JObj [("clone_url",
                                JStr "https://github.com/acme/tool.git")])))))
    as H1 by (vm_compute; reflexivity).
  assert (requests_post Fixture.plain (repos_url Fixture.cfg)
            (github_headers Fixture.cfg)
            (repo_payload (JStr "tool") (JStr "again") true)
            (Fixture.World {["tool"]} ∅) =
          (Fixture.World {["tool"]} ∅,
           inr (Response 422
                  "Repository creation failed: name already exists on this account"
                  None)))
    as H2 by (vm_compute; reflexivity).
  destruct (create_github_repo_reuses_on_conflict Fixture.plain Fixture.cfg
              (JStr "tool") (JStr "first") (JStr "again") true true
              _ _ _ _ _ H1 H2 eq_refl eq_refl)
    as (Hsecond & _ & Hfirst & _).
  split; [exact Hsecond|].
  destruct (Hfirst eq_refl eq_refl
              [("clone_url", JStr "https://github.com/acme/tool.git")]
              (JStr "https://github.com/acme/tool.git") eq_refl eq_refl)
    as [Hurl _].
  exact Hurl.
Defined.

(** C2 as stated fails twice.  A destination that spells the organisation
    [Acme] creates [tool] at the first call and reports a name conflict at
    the second: both calls return, with two different URLs.  And a
    response with status 304, which is no success, raises no [HTTPError]:
    the call fails on decoding the empty body. *)
Lemma create_github_repo_not_idempotent :
  create_github_repo Fixture.respelling Fixture.cfg
      (JStr "tool") (JStr "") true Fixture.empty =
    (Fixture.World {["tool"]} ∅,
     [HttpPost (repos_url Fixture.cfg) (github_headers Fixture.cfg)
               (repo_payload (JStr "tool") (JStr "") true)],
     Return (JStr "https://github.com/Acme/tool.git")) /\
  create_github_repo Fixture.respelling Fixture.cfg
      (JStr "tool") (JStr "") true (Fixture.World {["tool"]} ∅) =
    (Fixture.World {["tool"]} ∅,
     [HttpPost (repos_url Fixture.cfg) (github_headers Fixture.cfg)
               (repo_payload (JStr "tool") (JStr "") true);
      Print "GitHub repo tool already exists, reusing."],
     Return (JStr "https://github.com/acme/tool.git")) /\
  JStr "https://github.com/Acme/tool.git" <> JStr "https://github.com/acme/tool.git" /\
  result_of (create_github_repo Fixture.unmodified Fixture.cfg
               (JStr "tool") (JStr "") true Fixture.empty) =
    Raise JSONDecodeError.
Proof.
  split; [vm_compute; reflexivity|].
  split; [vm_compute; reflexivity|].
  split; [discriminate|].
  reflexivity.
Qed.

(* ================================================================== *)
(** ** The claims about the loop of [main] *)
(* ================================================================== *)

Section LoopClaims.
Context {W : Type} (host : Host W) (cfg : config).

(** C3, as amended.  Let the loop have processed the projects [before]
    and come to the live project [p].  A clone or a fetch of [p] that
    returns a status other than 0 ends the iteration as skipped, with the
    reason logged last and nothing more attempted for [p]: no creation
    call, no other command.  Once step 1 has succeeded, a creation call
    that raises, a [git remote add] that returns a status other than 0
    (whatever the removal before it returned) and a push that returns a
    status other than 0 each end the iteration in the same way, right
    after the step that failed.  Whenever the iteration on [p] returns,
    the loop goes on: the projects [before] were processed as the loop
    processes them on their own, and the projects [after] are processed
    as the loop processes them from the world that [p] left.  That world
    is all that reaches them: two runs of the iteration on [p], one in
    which a step fails and one in which none does, that leave the same
    world are followed by the same processing of [after].  When the
    iteration raises, the loop ends with the exception and [after] is
    not processed.  And [main] exits with status 0 whenever the loop
    reaches the end of the listing, whatever the outcomes are, and with
    status 1 when an iteration raises. *)
Theorem main_isolates_failures (before after : list json) (p : json)
    (path : string) (proj_name http_url : json) (w w1 : W) (t1 : list event)
    (os1 : list outcome) :
  readable p (JStr path) proj_name http_url ->
  truthy (field "archived" JNull p) = false ->
  main_loop host cfg before w = (w1, t1, Return os1) ->
  (forall w2 w3 rc,
     os_path_exists host (mirror_dir cfg path) w1 = false ->
     os_makedirs host (OsPath.dirname (mirror_dir cfg path)) w1 = (w2, inr tt) ->
     subprocess_run host (clone_cmd http_url (mirror_dir cfg path)) None w2 =
       (w3, inr rc) ->
     rc <> 0 ->
     main_body host cfg p w1 =
       (w3,
        Print (newline +:+ "=== Processing " +:+ path +:+ " ===") ::
        Makedirs (OsPath.dirname (mirror_dir cfg path)) (inr tt) ::
        (run_log (clone_cmd http_url (mirror_dir cfg path)) None (inr rc) ++
         [Print ("Skipping " +:+ path +:+ " due to clone error")])%list,
        Return (Skipped CloneError))) /\
  (forall w2 rc,
     os_path_exists host (mirror_dir cfg path) w1 = true ->
     subprocess_run host "git fetch --all --prune" (Some (mirror_dir cfg path)) w1 =
       (w2, inr rc) ->
     rc <> 0 ->
     main_body host cfg p w1 =
       (w2,
        Print (newline +:+ "=== Processing " +:+ path +:+ " ===") ::
        Print ("Local mirror exists for " +:+ path +:+ ", fetching updates") ::
        (run_log "git fetch --all --prune" (Some (mirror_dir cfg path)) (inr rc) ++
         [Print ("Skipping " +:+ path +:+ " due to fetch error")])%list,
        Return (Skipped FetchError))) /\
  (forall t2 w2 w3 tc,
     synced host cfg path http_url w1 t2 w2 ->
     (forall e,
        create_github_repo host cfg proj_name (description_for cfg p (JStr path))
          (negb (truthy (field "public" (JBool false) p))) w2 = (w3, tc, Raise e) ->
        main_body host cfg p w1 =
          (w3,
           Print (newline +:+ "=== Processing " +:+ path +:+ " ===") ::
           (t2 ++ tc ++
            [Print ("Failed to create GitHub repo for " +:+ path +:+ ": " +:+
                    exception_str e)])%list,
           Return (Skipped (CreateError e)))) /\
     (forall gh_url w4 rc4 w5 rc5,
        create_github_repo host cfg proj_name (description_for cfg p (JStr path))
          (negb (truthy (field "public" (JBool false) p))) w2 =
          (w3, tc, Return gh_url) ->
        subprocess_run host "git remote remove github" (Some (mirror_dir cfg path)) w3 =
          (w4, inr rc4) ->
        subprocess_run host (remote_add_cmd gh_url) (Some (mirror_dir cfg path)) w4 =
          (w5, inr rc5) ->
        (rc5 <> 0 ->
         main_body host cfg p w1 =
           (w5,
            Print (newline +:+ "=== Processing " +:+ path +:+ " ===") ::
            (t2 ++ tc ++ Print ("GitHub repo URL: " +:+ str gh_url) ::
             run_log "git remote remove github" (Some (mirror_dir cfg path)) (inr rc4) ++
             run_log (remote_add_cmd gh_url) (Some (mirror_dir cfg path)) (inr rc5) ++
             [Print ("Failed to add github remote for " +:+ path)])%list,
            Return (Skipped RemoteAddError))) /\
        (forall w6 rc6,
           rc5 = 0 ->
           subprocess_run host "git push --mirror github"
             (Some (mirror_dir cfg path)) w5 = (w6, inr rc6) ->
           rc6 <> 0 ->
           main_body host cfg p w1 =
             (w6,
              Print (newline +:+ "=== Processing " +:+ path +:+ " ===") ::
              (t2 ++ tc ++ Print ("GitHub repo URL: " +:+ str gh_url) ::
               run_log "git remote remove github" (Some (mirror_dir cfg path))
                 (inr rc4) ++
               run_log (remote_add_cmd gh_url) (Some (mirror_dir cfg path)) (inr rc5) ++
               run_log "git push --mirror github" (Some (mirror_dir cfg path))
                 (inr rc6) ++
               [Print ("Mirror push failed for " +:+ path)])%list,
              Return (Skipped PushError))))) /\
  (forall w2 t2 o,
     main_body host cfg p w1 = (w2, t2, Return o) ->
     main_loop host cfg (before ++ p :: after) w =
       continued (t1 ++ t2) (os1 ++ [o]) (main_loop host cfg after w2)) /\
  (forall wa wb w2 ta tb oa ob,
     main_body host cfg p wa = (w2, ta, Return oa) ->
     main_body host cfg p wb = (w2, tb, Return ob) ->
     main_loop host cfg (p :: after) wa =
       continued ta [oa] (main_loop host cfg after w2) /\
     main_loop host cfg (p :: after) wb =
       continued tb [ob] (main_loop host cfg after w2)) /\
  (forall w2 t2 e,
     main_body host cfg p w1 = (w2, t2, Raise e) ->
     main_loop host cfg (before ++ p :: after) w = (w2, (t1 ++ t2)%list, Raise e)) /\
  (forall fuel w0 t0 w3 t r,
     list_all_gitlab_projects host cfg fuel w0 =
       (w, t0, Return (before ++ p :: after)%list) ->
     main_loop host cfg (before ++ p :: after) w = (w3, t, r) ->
     main host cfg fuel w0 =
       (w3,
        (t0 ++ Print ("Found " +:+ pretty (length (before ++ p :: after)) +:+
                      " GitLab projects") :: t)%list,
        r) /\
     (forall os, r = Return os ->
        exit_status (result_of (main host cfg fuel w0)) = Some 0) /\
     (forall e, r = Raise e ->
        exit_status (result_of (main host cfg fuel w0)) = Some 1)).
Proof.
  intros Hr Ha Hbefore.
  pose proof (main_body_live host cfg _ _ _ _ w1 Hr Ha) as Hlive.
  destruct Hr as (members & -> & _).
  split; [|split; [|split; [|split; [|split; [|split]]]]].
  - intros w2 w3 rc Hex Hmk Hclone Hrc.
    rewrite Hlive, main_sync_eq, Hex, Hmk, Hclone.
    apply Z.eqb_neq in Hrc. rewrite Hrc. reflexivity.
  - intros w2 rc Hex Hfetch Hrc.
    rewrite Hlive, main_sync_eq, Hex, Hfetch.
    apply Z.eqb_neq in Hrc. rewrite Hrc. reflexivity.
  - intros t2 w2 w3 tc Hsync.
    rewrite Hlive, (main_sync_synced host cfg _ _ _ _ _ _ _ Hsync), main_push_eq.
    split.
    + intros e Hcreate. rewrite Hcreate. reflexivity.
    + intros gh_url w4 rc4 w5 rc5 Hcreate Hremove Hadd.
      rewrite Hcreate, Hremove, Hadd. split.
      * intros Hrc. apply Z.eqb_neq in Hrc. rewrite Hrc. reflexivity.
      * intros w6 rc6 -> Hpush Hrc. rewrite Hpush.
        apply Z.eqb_neq in Hrc. rewrite Hrc. reflexivity.
  - intros w2 t2 o Hbody. now apply main_loop_through with (w1 := w1).
  - intros wa wb w2 ta tb oa ob Hbodya Hbodyb.
    rewrite !main_loop_cons_eq, Hbodya, Hbodyb. split; reflexivity.
  - intros w2 t2 e Hbody. now apply main_loop_app_raise with (w1 := w1) (os1 := os1).
  - intros fuel w0 t0 w3 t r Hlist Hloop.
    assert (main host cfg fuel w0 =
              (w3,
               (t0 ++ Print ("Found " +:+ pretty (length (before ++ JObj members :: after)) +:+
                             " GitLab projects") :: t)%list,
               r)) as Hmain.
    { unfold main, bind at 1. rewrite Hlist.
      unfold bind at 1, print, emit. rewrite Hloop. now destruct r. }
    split; [exact Hmain|]. rewrite Hmain.
    split; [intros os ->; reflexivity | intros e ->; reflexivity].
Qed.

(** C4.  For a descriptor whose [archived] value is true (or any other
    value that Python takes for true), the iteration logs that the
    project is skipped and does nothing else: no command is run, nothing
    is posted, no directory is made, there is no pause, and the world is
    left as it was. *)
Theorem archived_project_is_skipped (p full_path proj_name http_url : json)
    (w : W) :
  readable p full_path proj_name http_url ->
  truthy (field "archived" JNull p) = true ->
  main_body host cfg p w =
    (w, [Print ("Skipping archived project " +:+ str full_path)],
     Return (Skipped Archived)) /\
  commands (trace_of (main_body host cfg p w)) = [] /\
  posted_private (trace_of (main_body host cfg p w)) = [] /\
  pauses (trace_of (main_body host cfg p w)) = [].
Proof.
  intros Hr Ha. rewrite (main_body_archived host cfg _ _ _ _ w Hr Ha).
  repeat split.
Qed.

(** C7, as amended.  An iteration ends as completed exactly when its
    mirror push was run and returned 0.  It then pauses once, for one
    second, as its last act; an iteration that ends in any other way, a
    skip or an exception, does not pause at all.  In both cases the loop
    goes on with the next project right after the last event of an
    iteration that returned. *)
Theorem main_pauses_after_completed (p : json) (path : string)
    (proj_name http_url : json) (rest : list json) (w w1 : W) (t1 : list event)
    (r : result outcome) :
  readable p (JStr path) proj_name http_url ->
  main_body host cfg p w = (w1, t1, r) ->
  (r = Return Completed <->
   In ("git push --mirror github", Some (mirror_dir cfg path), inr 0) (runs t1)) /\
  (r = Return Completed -> pauses t1 = [1] /\ last t1 = Some (Sleep 1)) /\
  (r <> Return Completed -> pauses t1 = []) /\
  (forall o, r = Return o ->
     main_loop host cfg (p :: rest) w =
       continued t1 [o] (main_loop host cfg rest w1)).
Proof.
  intros Hr Hbody.
  destruct (wp_at _ _ _ _ _ _ Hbody (main_body_summary host cfg p path proj_name
                                       http_url w Hr))
    as (Hf & Hp & Hl & _).
  split; [|split; [|split]].
  - split.
    + intros ->.
      assert (In ("git push --mirror github", Some (mirror_dir cfg path), inr 0)
                 (List.filter pushed (runs t1))) as Hin
        by (rewrite Hf; now left).
      now apply filter_In in Hin.
    + intros Hin.
      assert (In ("git push --mirror github", Some (mirror_dir cfg path), inr 0)
                 (List.filter pushed (runs t1))) as Hin'
        by (apply filter_In; split; [exact Hin | reflexivity]).
      rewrite Hf in Hin'.
      destruct r as [[|reason]|e|c|]; try contradiction. reflexivity.
  - intros ->. split; [exact Hp | exact Hl].
  - intros Hne. rewrite Hp.
    destruct r as [[|reason]|e|c|]; try reflexivity. now contradiction Hne.
  - intros o ->. now rewrite main_loop_cons_eq, Hbody.
Qed.

(** C9, as amended.  The body posted to the destination for a descriptor
    carries [private] = [not p.get("public", False)]: true when the
    descriptor has no [public] key or a [public] value of false, and
    false exactly when it has a [public] value that Python takes for
    true ([true], but also a non-zero number or a non-empty string).
    An iteration posts nothing else: one body with that flag when it
    gets as far as the destination, none otherwise. *)
Theorem private_unless_public_truthy (p : json) (w : W) :
  descriptor p ->
  (forall w' t r,
     main_body host cfg p w = (w', t, r) ->
     (posted_private t = [] \/
      posted_private t =
        [Some (JBool (negb (truthy (field "public" (JBool false) p))))]) /\
     forall o, r = Return o ->
       posted_private t =
         (if reaches_destination o
          then [Some (JBool (negb (truthy (field "public" (JBool false) p))))]
          else [])) /\
  forall members,
    p = JObj members ->
    private_flag p w =
      (w, [], Return (negb (truthy (field "public" (JBool false) p)))) /\
    (Json.lookup "public" members = None ->
     negb (truthy (field "public" (JBool false) p)) = true) /\
    (Json.lookup "public" members = Some (JBool false) ->
     negb (truthy (field "public" (JBool false) p)) = true) /\
    (Json.lookup "public" members = Some (JBool true) ->
     negb (truthy (field "public" (JBool false) p)) = false) /\
    (negb (truthy (field "public" (JBool false) p)) = false <->
     exists v, Json.lookup "public" members = Some v /\ truthy v = true).
Proof.
  intros (path & proj_name & http_url & Hr). split.
  - intros w' t r Hbody.
    destruct (wp_at _ _ _ _ _ _ Hbody (main_body_summary host cfg p path proj_name
                                         http_url w Hr))
      as (_ & _ & _ & Hposts & Hres & _).
    assert (posted_private t =
              (if first_succeeded t
               then [Some (JBool (negb (truthy (field "public" (JBool false) p))))]
               else [])) as Hpp.
    { rewrite <- posted_private_posts, Hposts. now destruct (first_succeeded t). }
    split.
    + rewrite Hpp. destruct (first_succeeded t); auto.
    + intros o ->. destruct Hres as [<- _]. exact Hpp.
  - intros members ->. split; [apply private_flag_eq|].
    unfold field.
    destruct (Json.lookup "public" members) as [v|]; cbn [from_option id].
    + repeat split; try discriminate.
      * intros [= ->]. reflexivity.
      * intros [= ->]. reflexivity.
      * intros H. exists v. split; [reflexivity|].
        now destruct (truthy v).
      * intros (v' & [= <-] & ->). reflexivity.
    + repeat split; try discriminate.
      intros (v & Hv & _). discriminate.
Qed.

(** C10.  A descriptor without an [archived] key, or with an [archived]
    value that Python takes for false, is not skipped as archived: its
    iteration logs the project and never ends as archived, whatever the
    host answers, and it goes through the whole workflow when every step
    succeeds: step 1 (the fetch, or the parent directory and the clone),
    the creation call, [git remote remove], [git remote add], the mirror
    push and the pause, in this order, ending as completed.  An
    iteration ends as archived only on a value that Python takes for
    true. *)
Theorem archived_skip_only_when_truthy (p : json) (path : string)
    (proj_name http_url : json) (w : W) :
  readable p (JStr path) proj_name http_url ->
  (forall members, p = JObj members ->
     Json.lookup "archived" members = None ->
     truthy (field "archived" JNull p) = false) /\
  (forall members v, p = JObj members ->
     Json.lookup "archived" members = Some v ->
     truthy (field "archived" JNull p) = truthy v) /\
  (truthy (field "archived" JNull p) = false ->
   (forall w' t r,
      main_body host cfg p w = (w', t, r) ->
      r <> Return (Skipped Archived) /\
      head t = Some (Print (newline +:+ "=== Processing " +:+ path +:+ " ==="))) /\
   (forall t1 w1 w2 tc gh_url w3 rc w4 w5,
      synced host cfg path http_url w t1 w1 ->
      create_github_repo host cfg proj_name (description_for cfg p (JStr path))
        (negb (truthy (field "public" (JBool false) p))) w1 =
        (w2, tc, Return gh_url) ->
      subprocess_run host "git remote remove github" (Some (mirror_dir cfg path)) w2 =
        (w3, inr rc) ->
      subprocess_run host (remote_add_cmd gh_url) (Some (mirror_dir cfg path)) w3 =
        (w4, inr 0) ->
      subprocess_run host "git push --mirror github" (Some (mirror_dir cfg path)) w4 =
        (w5, inr 0) ->
      main_body host cfg p w =
        (time_sleep host 1 w5,
         Print (newline +:+ "=== Processing " +:+ path +:+ " ===") ::
         (t1 ++ tc ++ Print ("GitHub repo URL: " +:+ str gh_url) ::
          run_log "git remote remove github" (Some (mirror_dir cfg path)) (inr rc) ++
          run_log (remote_add_cmd gh_url) (Some (mirror_dir cfg path)) (inr 0) ++
          run_log "git push --mirror github" (Some (mirror_dir cfg path)) (inr 0) ++
          [Sleep 1])%list,
         Return Completed))) /\
  (forall w' t,
     main_body host cfg p w = (w', t, Return (Skipped Archived)) ->
     truthy (field "archived" JNull p) = true).
Proof.
  intros Hr.
  pose proof (main_body_summary host cfg p path proj_name http_url w Hr) as Hsum.
  split; [|split; [|split]].
  - intros members -> Hnone. unfold field. rewrite Hnone. reflexivity.
  - intros members v -> Hsome. unfold field. rewrite Hsome. reflexivity.
  - intros Ha. split.
    + intros w' t r Hbody.
      destruct (wp_at _ _ _ _ _ _ Hbody Hsum) as (_ & _ & _ & _ & Hres & Hhead).
      split; [|exact (Hhead Ha)].
      intros ->. destruct Hres as [_ [Harch _]].
      rewrite Ha in Harch. now discriminate (Harch eq_refl).
    + intros t1 w1 w2 tc gh_url w3 rc w4 w5 Hsync Hcreate Hremove Hadd Hpush.
      rewrite (main_body_live host cfg _ _ _ _ w Hr Ha).
      destruct Hr as (members & -> & _).
      rewrite (main_sync_synced host cfg _ _ _ _ _ _ _ Hsync), main_push_eq.
      rewrite Hcreate, Hremove, Hadd, Hpush. reflexivity.
  - intros w' t Hbody.
    destruct (wp_at _ _ _ _ _ _ Hbody Hsum) as (_ & _ & _ & _ & [_ [Harch _]] & _).
    now apply Harch.
Qed.

End LoopClaims.

(* ================================================================== *)
(** ** The claims on the small world *)
(* ================================================================== *)

(** The projects of the fixture are descriptors. *)
Ltac fixture_descriptor :=
  unfold descriptor, readable; do 4 eexists; repeat split; reflexivity.

Lemma alpha_descriptor : descriptor Fixture.alpha.
Proof. fixture_descriptor. Qed.

Lemma gamma_descriptor : descriptor Fixture.gamma.
Proof. fixture_descriptor. Qed.

Lemma delta_descriptor : descriptor Fixture.delta.
Proof. fixture_descriptor. Qed.

Lemma beta_readable :
  readable Fixture.beta (JStr "team/beta") (JStr "beta")
           (JStr "https://gitlab.example/team/beta.git").
Proof. eexists. repeat split; reflexivity. Qed.

Lemma gamma_readable :
  readable Fixture.gamma (JStr "team/gamma") (JStr "gamma")
           (JStr "https://gitlab.example/team/gamma.git").
Proof. eexists. repeat split; reflexivity. Qed.

(** The run of the spec's failure scenario: the destination refuses the
    second of three projects. *)
Example main_refusing :
  result_of (main Fixture.refusing Fixture.cfg 3 Fixture.empty) =
    Return [Completed; Skipped (CreateError (HTTPError 403)); Completed].
Proof. vm_compute. reflexivity. Qed.

(** The spec's end-to-end scenario: [alpha] is public and live, [beta] is
    archived. *)
Example main_loop_alpha_beta :
  let run := main_loop Fixture.plain Fixture.cfg [Fixture.alpha; Fixture.beta]
               Fixture.empty in
  result_of run = Return [Completed; Skipped Archived] /\
  posted_private (trace_of run) = [Some (JBool false)] /\
  List.map fst (commands (trace_of run)) =
    [clone_cmd (JStr "https://gitlab.example/team/alpha.git")
               "./gitlab-mirror/team__alpha.git";
     "git remote remove github";
     "git remote add github " +:+ dquote +:+ "https://github.com/acme/alpha.git" +:+ dquote;
     "git push --mirror github"].
Proof. vm_compute. repeat split; reflexivity. Qed.

Lemma delta_readable :
  readable Fixture.delta (JStr "team/delta") (JStr "delta")
           (JStr "https://gitlab.example/team/delta.git").
Proof. eexists. repeat split; reflexivity. Qed.

(** The theorem on the spec's failure scenario: [alpha] has been
    processed, the destination refuses [delta], [gamma] comes after. *)
Lemma main_isolates_failures_witness :
  main_body Fixture.refusing Fixture.cfg Fixture.delta
      (Fixture.World {["alpha"]} {["./gitlab-mirror"]}) =
    (Fixture.World {["alpha"]} {["./gitlab-mirror"]},
     Print (newline +:+ "=== Processing " +:+ "team/delta" +:+ " ===") ::
     ((Makedirs (OsPath.dirname (mirror_dir Fixture.cfg "team/delta")) (inr tt) ::
       run_log (clone_cmd (JStr "https://gitlab.example/team/delta.git")
                          (mirror_dir Fixture.cfg "team/delta")) None (inr 0)) ++
      [creation Fixture.cfg Fixture.delta (JStr "team/delta") (JStr "delta")] ++
      [Print ("Failed to create GitHub repo for " +:+ "team/delta" +:+ ": " +:+
              exception_str (HTTPError 403))])%list,
     Return (Skipped (CreateError (HTTPError 403)))) /\
  main_loop Fixture.refusing Fixture.cfg
      ([Fixture.alpha] ++ Fixture.delta :: [Fixture.gamma]) Fixture.empty =
    continued
      (trace_of (main_loop Fixture.refusing Fixture.cfg [Fixture.alpha] Fixture.empty) ++
       trace_of (main_body Fixture.refusing Fixture.cfg Fixture.delta
                   (Fixture.World {["alpha"]} {["./gitlab-mirror"]})))
      ([Completed] ++ [Skipped (CreateError (HTTPError 403))])
      (main_loop Fixture.refusing Fixture.cfg [Fixture.gamma]
         (Fixture.World {["alpha"]} {["./gitlab-mirror"]})) /\
  exit_status (result_of (main Fixture.refusing Fixture.cfg 3 Fixture.empty)) = Some 0.
Proof.
  assert (main_loop Fixture.refusing Fixture.cfg [Fixture.alpha] Fixture.empty =
            (Fixture.World {["alpha"]} {["./gitlab-mirror"]},
             trace_of (main_loop Fixture.refusing Fixture.cfg [Fixture.alpha]
                         Fixture.empty),
             Return [Completed])) as Hbefore by (vm_compute; reflexivity).
  destruct (main_isolates_failures Fixture.refusing Fixture.cfg
              [Fixture.alpha] [Fixture.gamma] Fixture.delta "team/delta"
              (JStr "delta") (JStr "https://gitlab.example/team/delta.git")
              Fixture.empty _ _ _ delta_readable eq_refl Hbefore)
    as (_ & _ & Hpush & Hgoes & _ & _ & Hmain).
  assert (synced Fixture.refusing Fixture.cfg "team/delta"
            (JStr "https://gitlab.example/team/delta.git")
            (Fixture.World {["alpha"]} {["./gitlab-mirror"]})
            (Makedirs (OsPath.dirname (mirror_dir Fixture.cfg "team/delta")) (inr tt) ::
             run_log (clone_cmd (JStr "https://gitlab.example/team/delta.git")
                                (mirror_dir Fixture.cfg "team/delta")) None (inr 0))
            (Fixture.World {["alpha"]} {["./gitlab-mirror"]})) as Hsync.
  { unfold synced.
    assert (os_path_exists Fixture.refusing (mirror_dir Fixture.cfg "team/delta")
              (Fixture.World {["alpha"]} {["./gitlab-mirror"]}) = false) as ->
      by (vm_compute; reflexivity).
    exists (Fixture.World {["alpha"]} {["./gitlab-mirror"]}).
    split; [vm_compute; reflexivity|]. split; reflexivity. }
  destruct (Hpush _ _ (Fixture.World {["alpha"]} {["./gitlab-mirror"]})
              [creation Fixture.cfg Fixture.delta (JStr "team/delta") (JStr "delta")]
              Hsync) as [Hcreate _].
  assert (main_body Fixture.refusing Fixture.cfg Fixture.delta
            (Fixture.World {["alpha"]} {["./gitlab-mirror"]}) =
          (Fixture.World {["alpha"]} {["./gitlab-mirror"]},
           Print (newline +:+ "=== Processing " +:+ "team/delta" +:+ " ===") ::
           ((Makedirs (OsPath.dirname (mirror_dir Fixture.cfg "team/delta")) (inr tt) ::
             run_log (clone_cmd (JStr "https://gitlab.example/team/delta.git")
                                (mirror_dir Fixture.cfg "team/delta")) None (inr 0)) ++
            [creation Fixture.cfg Fixture.delta (JStr "team/delta") (JStr "delta")] ++
            [Print ("Failed to create GitHub repo for " +:+ "team/delta" +:+ ": " +:+
                    exception_str (HTTPError 403))])%list,
           Return (Skipped (CreateError (HTTPError 403))))) as Hbody.
  { apply (Hcreate (HTTPError 403)). vm_compute. reflexivity. }
  split; [exact Hbody|]. split.
  - apply (Hgoes (Fixture.World {["alpha"]} {["./gitlab-mirror"]})).
    rewrite Hbody. reflexivity.
  - destruct (Hmain 3%nat Fixture.empty (listing_calls Fixture.cfg 1 1)
                (world_of (main_loop Fixture.refusing Fixture.cfg
                             ([Fixture.alpha] ++ Fixture.delta :: [Fixture.gamma])
                             Fixture.empty))
                (trace_of (main_loop Fixture.refusing Fixture.cfg
                             ([Fixture.alpha] ++ Fixture.delta :: [Fixture.gamma])
                             Fixture.empty))
                (Return [Completed; Skipped (CreateError (HTTPError 403)); Completed]))
      as (_ & Hzero & _).
    + vm_compute. reflexivity.
    + vm_compute. reflexivity.
    + apply (Hzero _ eq_refl).
Defined.

(** C3 as stated fails.  On a disk that holds a plain file where the
    mirror of [gamma] goes, the fetch of [gamma] fails: [subprocess.run]
    raises, outside any [try].  The project is not skipped with a
    logged reason: the exception ends the loop, the last event of the run
    is the command that raised, [delta], which comes after [gamma] in the
    listing, is not processed at all (no command is run for it), and the
    process exits with status 1.  With a [git] that can enter the
    directory, the same listing on the same disk completes all three
    projects. *)
Lemma main_aborts_when_fetch_raises :
  result_of (main Fixture.broken Fixture.cfg 3 Fixture.stale) =
    Raise (OSError "NotADirectoryError") /\
  exit_status (result_of (main Fixture.broken Fixture.cfg 3 Fixture.stale)) = Some 1 /\
  last (trace_of (main Fixture.broken Fixture.cfg 3 Fixture.stale)) =
    Some (Run "git fetch --all --prune" (Some "./gitlab-mirror/team__gamma.git")
              (inl (OSError "NotADirectoryError"))) /\
  commands (trace_of (main Fixture.broken Fixture.cfg 3 Fixture.stale)) =
    [(clone_cmd (JStr "https://gitlab.example/team/alpha.git")
                "./gitlab-mirror/team__alpha.git", None);
     ("git remote remove github", Some "./gitlab-mirror/team__alpha.git");
     (remote_add_cmd (JStr "https://github.com/acme/alpha.git"),
      Some "./gitlab-mirror/team__alpha.git");
     ("git push --mirror github", Some "./gitlab-mirror/team__alpha.git");
     ("git fetch --all --prune", Some "./gitlab-mirror/team__gamma.git")] /\
  result_of (list_all_gitlab_projects Fixture.broken Fixture.cfg 3 Fixture.stale) =
    Return [Fixture.alpha; Fixture.gamma; Fixture.delta] /\
  result_of (main Fixture.working Fixture.cfg 3 Fixture.stale) =
    Return [Completed; Completed; Completed].
Proof. repeat split; vm_compute; reflexivity. Qed.

(** What a failure leaves behind reaches the later projects through the
    world.  [one/utils] and [two/utils] have the same leaf name, hence
    the same destination repository.  When both are mirrored, the second
    finds the repository that the first created and reuses it; when the
    clone of the first fails, the second creates the repository. *)
Example main_same_leaf_after_failure :
  result_of (main_loop Fixture.plain Fixture.cfg [Fixture.utils1; Fixture.utils2]
               Fixture.empty) = Return [Completed; Completed] /\
  result_of (main_loop Fixture.unreachable Fixture.cfg [Fixture.utils1; Fixture.utils2]
               Fixture.empty) = Return [Skipped CloneError; Completed] /\
  In (Print "GitHub repo utils already exists, reusing.")
     (trace_of (main_loop Fixture.plain Fixture.cfg [Fixture.utils1; Fixture.utils2]
                  Fixture.empty)) /\
  ~ In (Print "GitHub repo utils already exists, reusing.")
       (trace_of (main_loop Fixture.unreachable Fixture.cfg
                    [Fixture.utils1; Fixture.utils2] Fixture.empty)).
Proof.
  split; [vm_compute; reflexivity|]. split; [vm_compute; reflexivity|]. split.
  - vm_compute. tauto.
  - intros H. vm_compute in H.
    repeat (destruct H as [H|H]; [discriminate H|]). exact H.
Qed.

Lemma archived_project_is_skipped_witness :
  main_body Fixture.plain Fixture.cfg Fixture.beta Fixture.empty =
    (Fixture.empty,
     [Print ("Skipping archived project " +:+ str (JStr "team/beta"))],
     Return (Skipped Archived)) /\
  commands (trace_of (main_body Fixture.plain Fixture.cfg Fixture.beta Fixture.empty)) = [] /\
  posted_private
    (trace_of (main_body Fixture.plain Fixture.cfg Fixture.beta Fixture.empty)) = [] /\
  pauses (trace_of (main_body Fixture.plain Fixture.cfg Fixture.beta Fixture.empty)) = [].
Proof.
  apply (archived_project_is_skipped Fixture.plain Fixture.cfg Fixture.beta
           (JStr "team/beta") (JStr "beta")
           (JStr "https://gitlab.example/team/beta.git") Fixture.empty).
  - exact beta_readable.
  - reflexivity.
Defined.

Lemma main_pauses_after_completed_witness :
  pauses (trace_of (main_body Fixture.plain Fixture.cfg Fixture.gamma Fixture.empty)) =
    [1] /\
  last (trace_of (main_body Fixture.plain Fixture.cfg Fixture.gamma Fixture.empty)) =
    Some (Sleep 1) /\
  In ("git push --mirror github", Some (mirror_dir Fixture.cfg "team/gamma"), inr 0)
     (runs (trace_of (main_body Fixture.plain Fixture.cfg Fixture.gamma Fixture.empty))).
Proof.
  assert (main_body Fixture.plain Fixture.cfg Fixture.gamma Fixture.empty =
            (world_of (main_body Fixture.plain Fixture.cfg Fixture.gamma Fixture.empty),
             trace_of (main_body Fixture.plain Fixture.cfg Fixture.gamma Fixture.empty),
             Return Completed)) as Hbody by (vm_compute; reflexivity).
  destruct (main_pauses_after_completed Fixture.plain Fixture.cfg Fixture.gamma
              "team/gamma" (JStr "gamma") (JStr "https://gitlab.example/team/gamma.git")
              [Fixture.alpha] Fixture.empty _ _ _ gamma_readable Hbody)
    as (Hiff & Hpause & _ & _).
  destruct (Hpause eq_refl) as [Hp Hl].
  split; [exact Hp|]. split; [exact Hl|].
  apply Hiff. reflexivity.
Defined.

(** C7 as stated fails: after the archived [beta] is skipped, the loop
    goes on with [gamma] at once; the only pause of the run is the one
    that ends the completed iteration on [gamma]. *)
Lemma main_no_pause_after_skip :
  result_of (main_loop Fixture.plain Fixture.cfg [Fixture.beta; Fixture.gamma]
               Fixture.empty) =
    Return [Skipped Archived; Completed] /\
  take 2 (trace_of (main_loop Fixture.plain Fixture.cfg [Fixture.beta; Fixture.gamma]
                      Fixture.empty)) =
    [Print "Skipping archived project team/beta";
     Print (newline +:+ "=== Processing team/gamma ===")] /\
  pauses (trace_of (main_body Fixture.plain Fixture.cfg Fixture.beta Fixture.empty)) = [] /\
  pauses (trace_of (main_loop Fixture.plain Fixture.cfg [Fixture.beta; Fixture.gamma]
                      Fixture.empty)) = [1].
Proof. repeat split; vm_compute; reflexivity. Qed.

Lemma private_unless_public_truthy_witness :
  posted_private
    (trace_of (main_body Fixture.plain Fixture.cfg Fixture.gamma Fixture.empty)) =
    [Some (JBool (negb (truthy (field "public" (JBool false) Fixture.gamma))))] /\
  negb (truthy (field "public" (JBool false) Fixture.gamma)) = true.
Proof.
  destruct (private_unless_public_truthy Fixture.plain Fixture.cfg Fixture.gamma
              Fixture.empty gamma_descriptor) as [Hposted _].
  assert (main_body Fixture.plain Fixture.cfg Fixture.gamma Fixture.empty =
            (world_of (main_body Fixture.plain Fixture.cfg Fixture.gamma Fixture.empty),
             trace_of (main_body Fixture.plain Fixture.cfg Fixture.gamma Fixture.empty),
             Return Completed)) as Hbody by (vm_compute; reflexivity).
  destruct (Hposted _ _ _ Hbody) as [_ Hflag].
  split; [exact (Hflag Completed eq_refl) | reflexivity].
Defined.

(** C9 as stated fails: [epsilon] has the [public] value ["no"], which is
    not [true], and its repository is created with [private] false. *)
Lemma private_flag_on_string :
  field "public" (JBool false) Fixture.epsilon = JStr "no" /\
  JStr "no" <> JBool true /\
  result_of (main_body Fixture.plain Fixture.cfg Fixture.epsilon Fixture.empty) =
    Return Completed /\
  posted_private
    (trace_of (main_body Fixture.plain Fixture.cfg Fixture.epsilon Fixture.empty)) =
    [Some (JBool false)].
Proof.
  split; [reflexivity|]. split; [discriminate|].
  split; vm_compute; reflexivity.
Qed.

Lemma archived_skip_only_when_truthy_witness :
  main_body Fixture.plain Fixture.cfg Fixture.gamma Fixture.empty =
    (time_sleep Fixture.plain 1 (Fixture.World {["gamma"]} {["./gitlab-mirror"]}),
     Print (newline +:+ "=== Processing " +:+ "team/gamma" +:+ " ===") ::
     ((Makedirs (OsPath.dirname (mirror_dir Fixture.cfg "team/gamma")) (inr tt) ::
       run_log (clone_cmd (JStr "https://gitlab.example/team/gamma.git")
                          (mirror_dir Fixture.cfg "team/gamma")) None (inr 0)) ++
      [creation Fixture.cfg Fixture.gamma (JStr "team/gamma") (JStr "gamma")] ++
      Print ("GitHub repo URL: " +:+ str (JStr "https://github.com/acme/gamma.git")) ::
      run_log "git remote remove github" (Some (mirror_dir Fixture.cfg "team/gamma"))
        (inr 0) ++
      run_log (remote_add_cmd (JStr "https://github.com/acme/gamma.git"))
        (Some (mirror_dir Fixture.cfg "team/gamma")) (inr 0) ++
      run_log "git push --mirror github" (Some (mirror_dir Fixture.cfg "team/gamma"))
        (inr 0) ++
      [Sleep 1])%list,
     Return Completed).
Proof.
  destruct (archived_skip_only_when_truthy Fixture.plain Fixture.cfg Fixture.gamma
              "team/gamma" (JStr "gamma")
              (JStr "https://gitlab.example/team/gamma.git") Fixture.empty
              gamma_readable) as (_ & _ & Hlive & _).
  destruct (Hlive eq_refl) as [_ Hflow].
  apply (Hflow _ (Fixture.World ∅ {["./gitlab-mirror"]})
               (Fixture.World {["gamma"]} {["./gitlab-mirror"]}) _ _
               (Fixture.World {["gamma"]} {["./gitlab-mirror"]}) 0
               (Fixture.World {["gamma"]} {["./gitlab-mirror"]})
               (Fixture.World {["gamma"]} {["./gitlab-mirror"]})).
  - unfold synced.
    assert (os_path_exists Fixture.plain (mirror_dir Fixture.cfg "team/gamma")
              Fixture.empty = false) as -> by (vm_compute; reflexivity).
    exists (Fixture.World ∅ {["./gitlab-mirror"]}).
    split; [vm_compute; reflexivity|]. split; reflexivity.
  - vm_compute. reflexivity.
  - vm_compute. reflexivity.
  - vm_compute. reflexivity.
  - vm_compute. reflexivity.
Defined.

(* ================================================================== *)
(** ** The helpers [run] and [gitlab_get] *)
(* ================================================================== *)

Section HelperBehaviour.
Context {W : Type} (host : Host W) (cfg : config).

(** X1.  [run] logs the command, runs it once, in the directory it is
    given, and hands back its exit status whatever it is, after a line
    that reports a status other than 0.  It catches nothing: when
    [subprocess.run] raises (the working directory is missing, or is no
    directory), the exception passes through [run], which then logs no
    status and returns nothing. *)
Theorem run_returns_status (cmd : string) (cwd : option string) (w w' : W)
    (answer : exception + Z) :
  subprocess_run host cmd cwd w = (w', answer) ->
  run host cmd cwd w =
    (w',
     Print (newline +:+ ">> " +:+ cmd) :: Run cmd cwd answer ::
       match answer with
       | inr returncode =>
           if returncode =? 0 then []
           else [Print ("Command failed with code " +:+ pretty returncode)]
       | inl _ => []
       end,
     match answer with
     | inr returncode => Return returncode
     | inl e => Raise e
     end).
Proof.
  intros H. rewrite (run_answered host _ _ _ _ _ H).
  unfold run_log, answered.
  destruct answer as [e|rc]; [reflexivity|]. now destruct (rc =? 0).
Qed.

(** X2.  [gitlab_get] sends one request to [GITLAB_URL/api/v4<path>] with
    the private token as its only header (and an empty query when it is
    given none); an answer with a status from 400 to 599 raises
    [HTTPError], a failure of the transport is passed on, and any other
    answer is returned as it is. *)
Theorem gitlab_get_answers (path : string) (params : option (list (string * json)))
    (w w1 : W) (answer : exception + response) :
  requests_get host (GITLAB_URL cfg +:+ "/api/v4" +:+ path)
               [("PRIVATE-TOKEN", GITLAB_TOKEN cfg)]
               (from_option id [] params) w = (w1, answer) ->
  gitlab_get host cfg path params w =
    (w1,
     [HttpGet (GITLAB_URL cfg +:+ "/api/v4" +:+ path)
              [("PRIVATE-TOKEN", GITLAB_TOKEN cfg)] (from_option id [] params)],
     match answer with
     | inl e => Raise e
     | inr r =>
         if is_error (status_code r) then Raise (HTTPError (status_code r))
         else Return r
     end).
Proof.
  intros Hget. unfold gitlab_get, bind at 1, http_get. rewrite Hget.
  destruct answer as [e|r]; [reflexivity|].
  unfold bind at 1, raise_for_status.
  destruct (is_error (status_code r)); reflexivity.
Qed.

End HelperBehaviour.

Lemma run_returns_status_witness :
  run Fixture.broken "git fetch --all --prune" (Some "./gitlab-mirror/team__gamma.git")
      Fixture.stale =
    (Fixture.stale,
     [Print (newline +:+ ">> " +:+ "git fetch --all --prune");
      Run "git fetch --all --prune" (Some "./gitlab-mirror/team__gamma.git")
          (inl (OSError "NotADirectoryError"))],
     Raise (OSError "NotADirectoryError")).
Proof.
  apply (run_returns_status Fixture.broken "git fetch --all --prune"
           (Some "./gitlab-mirror/team__gamma.git") Fixture.stale Fixture.stale
           (inl (OSError "NotADirectoryError"))).
  vm_compute. reflexivity.
Defined.

Lemma gitlab_get_answers_witness :
  gitlab_get failing_source Fixture.cfg "/projects" (Some (list_params 2)) Fixture.empty =
    (Fixture.empty,
     [HttpGet (GITLAB_URL Fixture.cfg +:+ "/api/v4" +:+ "/projects")
              [("PRIVATE-TOKEN", GITLAB_TOKEN Fixture.cfg)]
              (from_option id [] (Some (list_params 2)))],
     Raise (HTTPError 500)).
Proof.
  apply (gitlab_get_answers failing_source Fixture.cfg "/projects"
           (Some (list_params 2)) Fixture.empty Fixture.empty
           (inr (Response 500 "Internal Server Error" None))).
  reflexivity.
Defined.

(* ================================================================== *)
(** ** The listing when it does not end on a short page *)
(* ================================================================== *)

Section ListingBehaviour.
Context {W : Type} (host : Host W) (cfg : config).

Local Open Scope nat_scope.

(** The turns of the loop on full pages. *)
Lemma list_pages_full (full : list (list json)) :
  forall (fuel page : nat) (acc : list json) (w w1 : W),
    serves host cfg page w full w1 ->
    Forall (fun items => length items = per_page) full ->
    list_pages host cfg (length full + fuel) page acc w =
      preceded (listing_calls cfg page (length full))
        (list_pages host cfg fuel (page + length full) (acc ++ concat full)%list w1).
Proof.
  induction full as [|items full IH]; intros fuel page acc w w1 Hs Hfull.
  - inversion Hs; subst. cbn [length concat Nat.add]. rewrite Nat.add_0_r, app_nil_r.
    unfold preceded, listing_calls, world_of, trace_of, result_of. cbn [seq List.map app].
    now destruct (list_pages host cfg fuel page acc w1) as [[? ?] ?].
  - inversion Hs as [|? ? r w2 ? ? ? Hget Hok Hbody Hrest]; subst.
    inversion Hfull as [|? ? Hlen Hfull']; subst.
    cbn [length Nat.add].
    rewrite (list_pages_step host cfg _ _ _ _ _ _ _ Hget Hok Hbody).
    assert ((length items <? per_page) = false) as -> by (apply Nat.ltb_ge; lia).
    rewrite (IH fuel (S page) (acc ++ items)%list w2 w1 Hrest Hfull').
    cbn [concat]. rewrite <- app_assoc.
    replace (page + S (length full)) with (S page + length full) by lia.
    unfold preceded, listing_calls, world_of, trace_of, result_of.
    cbn [seq List.map fst snd]. reflexivity.
Qed.

(** One turn of the loop on a request that fails. *)
Lemma list_pages_refused (fuel page : nat) (acc : list json) (w w1 : W)
    (answer : exception + response) (e : exception) :
  requests_get host (listing_url cfg) (listing_headers cfg)
               (list_params page) w = (w1, answer) ->
  refusal answer = Some e ->
  list_pages host cfg (S fuel) page acc w =
    (w1, [HttpGet (listing_url cfg) (listing_headers cfg) (list_params page)], Raise e).
Proof.
  intros Hget Href. cbn [list_pages]. unfold bind at 1.
  rewrite (gitlab_get_answers host cfg "/projects" (Some (list_params page)) w w1 answer Hget).
  destruct answer as [e'|r]; cbn [refusal] in Href.
  - injection Href as ->. reflexivity.
  - destruct (is_error (status_code r)); [|discriminate].
    injection Href as ->. reflexivity.
Qed.

(** One turn of the loop on a body that Python takes for false. *)
Lemma list_pages_falsy (fuel page : nat) (acc : list json) (w w1 : W)
    (r : response) (v : json) :
  requests_get host (listing_url cfg) (listing_headers cfg)
               (list_params page) w = (w1, inr r) ->
  is_error (status_code r) = false ->
  body r = Some v ->
  truthy v = false ->
  list_pages host cfg (S fuel) page acc w =
    (w1, [HttpGet (listing_url cfg) (listing_headers cfg) (list_params page)], Return acc).
Proof.
  intros Hget Hok Hbody Hv. cbn [list_pages]. unfold bind at 1.
  rewrite (gitlab_get_answers host cfg "/projects" (Some (list_params page)) w w1
             (inr r) Hget).
  rewrite Hok. unfold bind at 1, response_json. rewrite Hbody. cbn [ret].
  rewrite Hv. reflexivity.
Qed.

Lemma listing_calls_snoc (first n : nat) :
  listing_calls cfg first (n + 1) =
    (listing_calls cfg first n ++
     [HttpGet (listing_url cfg) (listing_headers cfg) (list_params (first + n))])%list.
Proof.
  unfold listing_calls. now rewrite seq_app, map_app.
Qed.

(** X3.  After any number of full pages, a listing request that fails
    (a status from 400 to 599, or a failure of the transport) ends
    [list_all_gitlab_projects] with that exception: the projects listed so
    far are dropped, no further page is asked for, and [main] passes the
    exception on without processing any project, so that the process
    exits with status 1. *)
Theorem listing_failure_is_fatal (full : list (list json)) (fuel : nat)
    (w w1 w2 : W) (answer : exception + response) (e : exception) :
  serves host cfg 1 w full w1 ->
  Forall (fun items => length items = per_page) full ->
  requests_get host (listing_url cfg) (listing_headers cfg)
               (list_params (S (length full))) w1 = (w2, answer) ->
  refusal answer = Some e ->
  length full < fuel ->
  list_all_gitlab_projects host cfg fuel w =
    (w2, listing_calls cfg 1 (length full + 1), Raise e) /\
  main host cfg fuel w = (w2, listing_calls cfg 1 (length full + 1), Raise e) /\
  exit_status (result_of (main host cfg fuel w)) = Some 1%Z.
Proof.
  intros Hs Hfull Hget Href Hfuel.
  assert (list_all_gitlab_projects host cfg fuel w =
            (w2, listing_calls cfg 1 (length full + 1), Raise e)) as Hlist.
  { unfold list_all_gitlab_projects.
    replace fuel with (length full + S (fuel - length full - 1)) by lia.
    rewrite (list_pages_full full _ 1 [] w w1 Hs Hfull).
    rewrite (list_pages_refused _ _ _ _ _ _ _ Hget Href).
    unfold preceded, world_of, trace_of, result_of. cbn [fst snd].
    now rewrite listing_calls_snoc. }
  split; [exact Hlist|].
  assert (main host cfg fuel w = (w2, listing_calls cfg 1 (length full + 1), Raise e))
    as Hmain by (unfold main, bind at 1; now rewrite Hlist).
  split; [exact Hmain|]. now rewrite Hmain.
Qed.

(** X4.  The loop of [list_all_gitlab_projects] has no bound of its own:
    served [n] full pages, it has asked for the pages 1 to [n] after [n]
    turns and is not done. *)
Theorem listing_goes_on_while_full (full : list (list json)) (w w1 : W) :
  serves host cfg 1 w full w1 ->
  Forall (fun items => length items = per_page) full ->
  list_all_gitlab_projects host cfg (length full) w =
    (w1, listing_calls cfg 1 (length full), Diverge).
Proof.
  intros Hs Hfull. unfold list_all_gitlab_projects.
  replace (length full) with (length full + 0) at 1 by lia.
  rewrite (list_pages_full full 0 1 [] w w1 Hs Hfull).
  unfold preceded, world_of, trace_of, result_of. cbn [list_pages diverge fst snd].
  now rewrite app_nil_r.
Qed.

(** X5.  A page whose body Python takes for false ([[]], but also [null],
    [{}], [""], [0] or [false]) ends the listing with the projects of the
    full pages before it; when it is the first page, [main] reports 0
    projects and does nothing more. *)
Theorem listing_ends_on_falsy_body (full : list (list json)) (fuel : nat)
    (w w1 w2 : W) (r : response) (v : json) :
  serves host cfg 1 w full w1 ->
  Forall (fun items => length items = per_page) full ->
  requests_get host (listing_url cfg) (listing_headers cfg)
               (list_params (S (length full))) w1 = (w2, inr r) ->
  is_error (status_code r) = false ->
  body r = Some v ->
  truthy v = false ->
  length full < fuel ->
  list_all_gitlab_projects host cfg fuel w =
    (w2, listing_calls cfg 1 (length full + 1), Return (concat full)) /\
  (full = [] ->
   main host cfg fuel w =
     (w2,
      [HttpGet (listing_url cfg) (listing_headers cfg) (list_params 1);
       Print "Found 0 GitLab projects"],
      Return [])).
Proof.
  intros Hs Hfull Hget Hok Hbody Hv Hfuel.
  assert (list_all_gitlab_projects host cfg fuel w =
            (w2, listing_calls cfg 1 (length full + 1), Return (concat full))) as Hlist.
  { unfold list_all_gitlab_projects.
    replace fuel with (length full + S (fuel - length full - 1)) by lia.
    rewrite (list_pages_full full _ 1 [] w w1 Hs Hfull).
    rewrite (list_pages_falsy _ _ _ _ _ _ _ Hget Hok Hbody Hv).
    unfold preceded, world_of, trace_of, result_of. cbn [fst snd].
    now rewrite listing_calls_snoc. }
  split; [exact Hlist|].
  intros ->. unfold main, bind at 1. rewrite Hlist. reflexivity.
Qed.

End ListingBehaviour.

Lemma serves_failing_source :
  serves failing_source Fixture.cfg 1 Fixture.empty [repeat Fixture.alpha 100]
         Fixture.empty.
Proof.
  eapply serves_cons; [reflexivity | reflexivity | reflexivity |]. apply serves_nil.
Qed.

Lemma serves_endless_source :
  serves endless_source Fixture.cfg 1 Fixture.empty
         [repeat Fixture.alpha 100; repeat Fixture.alpha 100] Fixture.empty.
Proof.
  eapply serves_cons; [reflexivity | reflexivity | reflexivity |].
  eapply serves_cons; [reflexivity | reflexivity | reflexivity |].
  apply serves_nil.
Qed.

Lemma listing_failure_is_fatal_witness :
  list_all_gitlab_projects failing_source Fixture.cfg 5 Fixture.empty =
    (Fixture.empty, listing_calls Fixture.cfg 1 2, Raise (HTTPError 500)) /\
  main failing_source Fixture.cfg 5 Fixture.empty =
    (Fixture.empty, listing_calls Fixture.cfg 1 2, Raise (HTTPError 500)) /\
  exit_status (result_of (main failing_source Fixture.cfg 5 Fixture.empty)) = Some 1.
Proof.
  apply (listing_failure_is_fatal failing_source Fixture.cfg
           [repeat Fixture.alpha 100] 5 Fixture.empty Fixture.empty Fixture.empty
           (inr (Response 500 "Internal Server Error" None)) (HTTPError 500)).
  - exact serves_failing_source.
  - repeat constructor.
  - reflexivity.
  - reflexivity.
  - simpl. lia.
Defined.

Lemma listing_goes_on_while_full_witness :
  list_all_gitlab_projects endless_source Fixture.cfg 2 Fixture.empty =
    (Fixture.empty, listing_calls Fixture.cfg 1 2, Diverge).
Proof.
  apply (listing_goes_on_while_full endless_source Fixture.cfg
           [repeat Fixture.alpha 100; repeat Fixture.alpha 100]
           Fixture.empty Fixture.empty).
  - exact serves_endless_source.
  - repeat constructor.
Defined.

Lemma listing_ends_on_falsy_body_witness :
  list_all_gitlab_projects null_source Fixture.cfg 1 Fixture.empty =
    (Fixture.empty, listing_calls Fixture.cfg 1 1, Return []) /\
  main null_source Fixture.cfg 1 Fixture.empty =
    (Fixture.empty,
     [HttpGet (listing_url Fixture.cfg) (listing_headers Fixture.cfg) (list_params 1);
      Print "Found 0 GitLab projects"],
     Return []).
Proof.
  destruct (listing_ends_on_falsy_body null_source Fixture.cfg [] 1
              Fixture.empty Fixture.empty Fixture.empty
              (Response 200 "" (Some JNull)) JNull
              (serves_nil _ _ _ _) (Forall_nil_2 _) eq_refl eq_refl eq_refl eq_refl
              (Nat.lt_0_succ 0))
    as [Hlist Hmain].
  split; [exact Hlist | exact (Hmain eq_refl)].
Defined.

(* ================================================================== *)
(** ** [create_github_repo] on answers it cannot use *)
(* ================================================================== *)

Section CreateBehaviour.
Context {W : Type} (host : Host W) (cfg : config).

(** X6.  [create_github_repo] posts once and never again.  A failure of
    the transport is passed on.  An answer that is neither a name
    conflict nor an error status returns nothing unless its body is an
    object with a [clone_url]: a body that is not JSON raises
    [JSONDecodeError], an object without [clone_url] raises [KeyError],
    any other JSON value raises [TypeError]. *)
Theorem create_github_repo_unreadable (name description : json) (private : bool)
    (w w1 : W) (answer : exception + response) :
  requests_post host (repos_url cfg) (github_headers cfg)
                (repo_payload name description private) w = (w1, answer) ->
  trace_of (create_github_repo host cfg name description private w) <> [] /\
  effects (trace_of (create_github_repo host cfg name description private w)) =
    [HttpPost (repos_url cfg) (github_headers cfg)
              (repo_payload name description private)] /\
  world_of (create_github_repo host cfg name description private w) = w1 /\
  (forall e, answer = inl e ->
     result_of (create_github_repo host cfg name description private w) = Raise e) /\
  (forall r, answer = inr r ->
     name_conflict r = false -> is_error (status_code r) = false ->
     (body r = None ->
      result_of (create_github_repo host cfg name description private w) =
        Raise JSONDecodeError) /\
     (forall members, body r = Some (JObj members) ->
        Json.lookup "clone_url" members = None ->
        result_of (create_github_repo host cfg name description private w) =
          Raise (KeyError "clone_url")) /\
     (forall v, body r = Some v -> (forall members, v <> JObj members) ->
        result_of (create_github_repo host cfg name description private w) =
          Raise TypeError)).
Proof.
  intros Hpost.
  assert (forall r, answer = inr r -> name_conflict r = false ->
          is_error (status_code r) = false ->
          create_github_repo host cfg name description private w =
            (w1,
             [HttpPost (repos_url cfg) (github_headers cfg)
                       (repo_payload name description private)],
             match body r with
             | Some (JObj members) =>
                 match Json.lookup "clone_url" members with
                 | Some url => Return url
                 | None => Raise (KeyError "clone_url")
                 end
             | Some _ => Raise TypeError
             | None => Raise JSONDecodeError
             end)) as Hok.
  { intros r -> Hc He.
    unfold create_github_repo, bind at 1, http_post. rewrite Hpost, Hc.
    unfold bind at 1, raise_for_status. rewrite He. cbn [ret].
    unfold bind at 1, response_json.
    destruct (body r) as [v|]; cbn [ret raise]; [|reflexivity].
    unfold subscript.
    destruct v as [| | | | |members]; try reflexivity.
    destruct (Json.lookup "clone_url" members); reflexivity. }
  assert (forall e, answer = inl e ->
          create_github_repo host cfg name description private w =
            (w1,
             [HttpPost (repos_url cfg) (github_headers cfg)
                       (repo_payload name description private)],
             Raise e)) as Hinl.
  { intros e ->. unfold create_github_repo, bind at 1, http_post. rewrite Hpost.
    reflexivity. }
  assert (trace_of (create_github_repo host cfg name description private w) <> [] /\
          effects (trace_of (create_github_repo host cfg name description private w)) =
            [HttpPost (repos_url cfg) (github_headers cfg)
                      (repo_payload name description private)] /\
          world_of (create_github_repo host cfg name description private w) = w1)
    as (Ht & He & Hw).
  { destruct answer as [e|r].
    - rewrite (Hinl e eq_refl).
      split; [unfold trace_of; cbn [fst snd]; discriminate | split; reflexivity].
    - destruct (name_conflict r) eqn:Hc.
      + rewrite (create_github_repo_conflict host cfg _ _ _ _ _ _ Hpost Hc).
        split; [unfold trace_of; cbn [fst snd]; discriminate | split; reflexivity].
      + destruct (is_error (status_code r)) eqn:Herr.
        * rewrite (create_github_repo_error host cfg _ _ _ _ _ _ Hpost Hc Herr).
          split; [unfold trace_of; cbn [fst snd]; discriminate | split; reflexivity].
        * rewrite (Hok r eq_refl Hc Herr). split; [unfold trace_of; cbn [fst snd]; discriminate | split; reflexivity]. }
  split; [exact Ht|]. split; [exact He|]. split; [exact Hw|]. split.
  - intros e He'. now rewrite (Hinl e He').
  - intros r Hr Hc Herr. rewrite (Hok r Hr Hc Herr). unfold result_of. cbn [snd].
    split; [|split].
    + intros ->. reflexivity.
    + intros members -> ->. reflexivity.
    + intros v -> Hv. destruct v as [| | | | |members]; try reflexivity.
      now contradiction (Hv members).
Qed.

End CreateBehaviour.

Lemma create_github_repo_unreadable_witness :
  result_of (create_github_repo silent Fixture.cfg (JStr "tool") (JStr "") true
               Fixture.empty) =
    Raise (KeyError "clone_url").
Proof.
  destruct (create_github_repo_unreadable silent Fixture.cfg (JStr "tool") (JStr "") true
              Fixture.empty Fixture.empty (inr (Response 201 "" (Some (JObj []))))
              eq_refl)
    as (_ & _ & _ & _ & Hr).
  destruct (Hr _ eq_refl eq_refl eq_refl) as (_ & Hkey & _).
  exact (Hkey [] eq_refl eq_refl).
Defined.

(* ================================================================== *)
(** ** Exceptions inside an iteration *)
(* ================================================================== *)

Section IterationErrors.
Context {W : Type} (host : Host W) (cfg : config).


End IterationErrors.


(* ================================================================== *)
(** ** The loop as a whole *)
(* ================================================================== *)

Section LoopBehaviour.
Context {W : Type} (host : Host W) (cfg : config).

Lemma main_body_missing_key (members : list (string * json)) (key : string) (w : W) :
  first_missing members = Some key ->
  main_body host cfg (JObj members) w = (w, [], Raise (KeyError key)).
Proof.
  unfold first_missing, main_body, bind, subscript. intros Hm.
  destruct (Json.lookup "path_with_namespace" members);
    [|injection Hm as <-; reflexivity].
  cbv beta iota delta [ret].
  destruct (Json.lookup "path" members); [|injection Hm as <-; reflexivity].
  cbv beta iota delta [ret].
  destruct (Json.lookup "http_url_to_repo" members); [discriminate|].
  injection Hm as <-. reflexivity.
Qed.

(** X7.  A listed object that lacks one of the fields
    [path_with_namespace], [path] and [http_url_to_repo] is not skipped:
    indexing it raises [KeyError] for the first field that is missing,
    before the archived flag is looked at and outside the [try] of the
    loop body.  The loop ends there: the projects before it have been
    processed, those after it never are, and the process exits with
    status 1. *)
Theorem main_stops_on_missing_field (members : list (string * json)) (key : string)
    (before after : list json) (w w1 : W) (t1 : list event) (os1 : list outcome) :
  first_missing members = Some key ->
  main_loop host cfg before w = (w1, t1, Return os1) ->
  main_body host cfg (JObj members) w1 = (w1, [], Raise (KeyError key)) /\
  main_loop host cfg (before ++ JObj members :: after) w =
    (w1, t1, Raise (KeyError key)) /\
  exit_status (result_of (main_loop host cfg (before ++ JObj members :: after) w)) =
    Some 1.
Proof.
  intros Hm Hloop.
  pose proof (main_body_missing_key members key w1 Hm) as Hbody.
  pose proof (main_loop_app_raise host cfg before after (JObj members) w w1 w1 t1 []
                os1 (KeyError key) Hloop Hbody) as Hall.
  rewrite app_nil_r in Hall.
  split; [exact Hbody|]. split; [exact Hall|]. now rewrite Hall.
Qed.

(** What the loop over descriptors adds up to, however it ends. *)
Lemma main_loop_summary (projects : list json) :
  Forall descriptor projects ->
  forall (w w' : W) (t : list event) (r : result (list outcome)),
    main_loop host cfg projects w = (w', t, r) ->
    pauses t = repeat 1 (length (List.filter pushed (runs t))) /\
    (forall os, r = Return os ->
       length os = length projects /\
       length (List.filter pushed (runs t)) = length (List.filter completed os)) /\
    exists ts,
      t = concat ts /\
      (length ts <= length projects)%nat /\
      (forall os, r = Return os -> length ts = length projects) /\
      Forall2 (fun p t_p =>
                 (exists w1 w2 r1, main_body host cfg p w1 = (w2, t_p, r1)) /\
                 posts t_p =
                   if first_succeeded t_p
                   then [creation cfg p (field "path_with_namespace" JNull p)
                                  (field "path" JNull p)]
                   else [])
              (take (length ts) projects) ts.
Proof.
  induction 1 as [|p rest Hp _ IH]; intros w w' t r Hloop.
  - cbn in Hloop. injection Hloop as <- <- <-.
    split; [reflexivity|]. split.
    + intros os [= <-]. split; reflexivity.
    + exists []. split; [reflexivity|]. split; [reflexivity|].
      split; [reflexivity|]. constructor.
  - rewrite main_loop_cons_eq in Hloop.
    destruct Hp as (path & proj_name & http_url & Hr).
    destruct (main_body host cfg p w) as [[w1 t1] r1] eqn:Hbody.
    destruct (wp_at _ _ _ _ _ _ Hbody (main_body_summary host cfg p path proj_name
                                         http_url w Hr))
      as (Hf & Hpause & _ & Hposts & Hres & _).
    assert (posts t1 =
              if first_succeeded t1
              then [creation cfg p (field "path_with_namespace" JNull p)
                             (field "path" JNull p)]
              else []) as Hposts'.
    { rewrite Hposts. destruct Hr as (members & -> & H1 & H2 & _).
      unfold field. rewrite H1, H2. reflexivity. }
    destruct r1 as [o|e|c|]; try contradiction.
    + destruct (main_loop host cfg rest w1) as [[w2 t2] r2] eqn:Hrest.
      destruct (IH w1 w2 t2 r2 Hrest) as (IHp & IHos & ts & IHt & IHlen & IHall & IHposts).
      unfold continued, world_of, trace_of, result_of in Hloop. cbn [fst snd] in Hloop.
      assert (t = (t1 ++ t2)%list) as -> by congruence.
      assert (r = match r2 with
                  | Return os' => Return ([o] ++ os')%list
                  | Raise e => Raise e
                  | Exit c => Exit c
                  | Diverge => Diverge
                  end) as -> by congruence.
      rewrite pauses_app, runs_app, List.filter_app, List.length_app, repeat_app.
      rewrite <- IHp, Hpause, Hf.
      split; [now destruct o|]. split.
      * intros os Hos. destruct r2 as [os'|e|c|]; try discriminate.
        injection Hos as <-. destruct (IHos os' eq_refl) as [Hl Hc].
        split; [simpl; now rewrite Hl|].
        rewrite Hc. now destruct o.
      * exists (t1 :: ts). split; [now rewrite IHt|].
        split; [simpl; lia|]. split.
        -- intros os Hos. destruct r2 as [os'|e|c|]; try discriminate.
           simpl. now rewrite (IHall os' eq_refl).
        -- simpl. constructor; [|exact IHposts].
           split; [now exists w, w1, (Return o) | exact Hposts'].
    + assert (t = t1) as -> by congruence.
      assert (r = Raise e) as -> by congruence.
      rewrite Hpause, Hf.
      split; [reflexivity|]. split; [discriminate|].
      exists [t1]. split; [simpl; now rewrite app_nil_r|].
      split; [simpl; lia|]. split; [discriminate|].
      simpl. constructor; [|constructor].
      split; [now exists w, w1, (Raise e) | exact Hposts'].
Qed.

(** X9.  Over a whole listing of descriptors, and however the loop ends,
    the script has paused once, for one second, for each mirror push
    that returned 0, and never otherwise.  When the loop reaches the end
    of the listing there is one outcome for each project, and the
    completed ones are as many as these pushes. *)
Theorem main_loop_pauses_per_completed (projects : list json) (w w' : W)
    (t : list event) (r : result (list outcome)) :
  Forall descriptor projects ->
  main_loop host cfg projects w = (w', t, r) ->
  pauses t = repeat 1 (length (List.filter pushed (runs t))) /\
  (forall os, r = Return os ->
     length os = length projects /\
     length (List.filter pushed (runs t)) = length (List.filter completed os)).
Proof.
  intros H Hloop.
  destruct (main_loop_summary projects H w w' t r Hloop) as (Hp & Hos & _).
  split; assumption.
Qed.

(** X10.  Over a whole listing of descriptors, the events of the loop are
    those of its iterations, one after the other, one run of the loop
    body for each project it came to; and each iteration calls the
    creation endpoint
    of the destination once, for the project's own leaf name, description
    and flag, when its first command (the clone or the fetch) returned
    0, and not at all otherwise.  So there is one call for each project
    that got past step 1 and none for any other: no second attempt, and
    never more calls than projects. *)
Theorem main_loop_posts_per_project (projects : list json) (w w' : W)
    (t : list event) (r : result (list outcome)) :
  Forall descriptor projects ->
  main_loop host cfg projects w = (w', t, r) ->
  exists ts,
    t = concat ts /\
    (length ts <= length projects)%nat /\
    (forall os, r = Return os -> length ts = length projects) /\
    Forall2 (fun p t_p =>
               (exists w1 w2 r1, main_body host cfg p w1 = (w2, t_p, r1)) /\
               posts t_p =
                 if first_succeeded t_p
                 then [creation cfg p (field "path_with_namespace" JNull p)
                                (field "path" JNull p)]
                 else [])
            (take (length ts) projects) ts.
Proof.
  intros H Hloop.
  destruct (main_loop_summary projects H w w' t r Hloop) as (_ & _ & Hts).
  exact Hts.
Qed.

End LoopBehaviour.

Lemma main_stops_on_missing_field_witness :
  exists w1 t1 os1,
    main_loop Fixture.plain Fixture.cfg [Fixture.gamma] Fixture.empty =
      (w1, t1, Return os1) /\
    main_body Fixture.plain Fixture.cfg zeta w1 = (w1, [], Raise (KeyError "path")) /\
    main_loop Fixture.plain Fixture.cfg ([Fixture.gamma] ++ zeta :: [Fixture.alpha])
      Fixture.empty = (w1, t1, Raise (KeyError "path")) /\
    exit_status
      (result_of (main_loop Fixture.plain Fixture.cfg
                    ([Fixture.gamma] ++ zeta :: [Fixture.alpha]) Fixture.empty)) = Some 1.
Proof.
  assert (main_loop Fixture.plain Fixture.cfg [Fixture.gamma] Fixture.empty =
            (world_of (main_loop Fixture.plain Fixture.cfg [Fixture.gamma] Fixture.empty),
             trace_of (main_loop Fixture.plain Fixture.cfg [Fixture.gamma] Fixture.empty),
             Return [Completed])) as Hbefore by (vm_compute; reflexivity).
  eexists _, _, _. split; [exact Hbefore|].
  apply (main_stops_on_missing_field Fixture.plain Fixture.cfg
           [("path_with_namespace", JStr "team/zeta");
            ("http_url_to_repo", JStr "https://gitlab.example/team/zeta.git");
            ("archived", JBool true)]
           "path" [Fixture.gamma] [Fixture.alpha] Fixture.empty _ _ _ eq_refl Hbefore).
Defined.

Lemma main_loop_pauses_per_completed_witness :
  pauses (trace_of (main_loop Fixture.refusing Fixture.cfg
                      [Fixture.alpha; Fixture.delta; Fixture.beta] Fixture.empty)) =
    repeat 1 (length (List.filter pushed
                        (runs (trace_of (main_loop Fixture.refusing Fixture.cfg
                                 [Fixture.alpha; Fixture.delta; Fixture.beta]
                                 Fixture.empty))))) /\
  length (List.filter pushed
            (runs (trace_of (main_loop Fixture.refusing Fixture.cfg
                     [Fixture.alpha; Fixture.delta; Fixture.beta] Fixture.empty)))) =
    length (List.filter completed
              [Completed; Skipped (CreateError (HTTPError 403)); Skipped Archived]).
Proof.
  assert (main_loop Fixture.refusing Fixture.cfg
            [Fixture.alpha; Fixture.delta; Fixture.beta] Fixture.empty =
          (world_of (main_loop Fixture.refusing Fixture.cfg
                       [Fixture.alpha; Fixture.delta; Fixture.beta] Fixture.empty),
           trace_of (main_loop Fixture.refusing Fixture.cfg
                       [Fixture.alpha; Fixture.delta; Fixture.beta] Fixture.empty),
           Return [Completed; Skipped (CreateError (HTTPError 403)); Skipped Archived]))
    as Hloop by (vm_compute; reflexivity).
  assert (Forall descriptor [Fixture.alpha; Fixture.delta; Fixture.beta]) as Hall
    by (repeat constructor;
        [exact alpha_descriptor | exact delta_descriptor | fixture_descriptor]).
  destruct (main_loop_pauses_per_completed Fixture.refusing Fixture.cfg
              [Fixture.alpha; Fixture.delta; Fixture.beta] Fixture.empty _ _ _
              Hall Hloop) as [Hp Hos].
  split; [exact Hp|]. exact (proj2 (Hos _ eq_refl)).
Defined.

Lemma main_loop_posts_per_project_witness :
  exists ts,
    trace_of (main_loop Fixture.refusing Fixture.cfg
                [Fixture.alpha; Fixture.delta; Fixture.beta] Fixture.empty) =
      concat ts /\
    (length ts <= length [Fixture.alpha; Fixture.delta; Fixture.beta])%nat /\
    Forall2 (fun p t_p =>
               (exists w1 w2 r1,
                  main_body Fixture.refusing Fixture.cfg p w1 = (w2, t_p, r1)) /\
               posts t_p =
                 if first_succeeded t_p
                 then [creation Fixture.cfg p (field "path_with_namespace" JNull p)
                                (field "path" JNull p)]
                 else [])
            (take (length ts) [Fixture.alpha; Fixture.delta; Fixture.beta]) ts.
Proof.
  assert (main_loop Fixture.refusing Fixture.cfg
            [Fixture.alpha; Fixture.delta; Fixture.beta] Fixture.empty =
          (world_of (main_loop Fixture.refusing Fixture.cfg
                       [Fixture.alpha; Fixture.delta; Fixture.beta] Fixture.empty),
           trace_of (main_loop Fixture.refusing Fixture.cfg
                       [Fixture.alpha; Fixture.delta; Fixture.beta] Fixture.empty),
           Return [Completed; Skipped (CreateError (HTTPError 403)); Skipped Archived]))
    as Hloop by (vm_compute; reflexivity).
  assert (Forall descriptor [Fixture.alpha; Fixture.delta; Fixture.beta]) as Hall
    by (repeat constructor;
        [exact alpha_descriptor | exact delta_descriptor | fixture_descriptor]).
  destruct (main_loop_posts_per_project Fixture.refusing Fixture.cfg
              [Fixture.alpha; Fixture.delta; Fixture.beta] Fixture.empty _ _ _
              Hall Hloop) as (ts & Ht & Hlen & _ & Hposts).
  exists ts. split; [exact Ht|]. split; [exact Hlen | exact Hposts].
Defined.

(* ================================================================== *)
(** ** Start-up *)
(* ================================================================== *)

Section StartUp.
Context {W : Type} (host : Host W).

Lemma all_char_app (c : ascii) (s t : string) :
  PyStr.all_char c (s +:+ t) = PyStr.all_char c s && PyStr.all_char c t.
Proof.
  induction s as [|a s IH]; [reflexivity|].
  rewrite app_cons. simpl. rewrite IH. now rewrite andb_assoc.
Qed.

(** [rstrip] removes a run of [c] from the end, and all of it. *)
Lemma rstrip_spec (c : ascii) (s : string) :
  exists t,
    s = PyStr.rstrip c s +:+ t /\
    PyStr.all_char c t = true /\
    forall u, PyStr.rstrip c s <> u +:+ String c "".
Proof.
  induction s as [|a s (t & Hs & Ht & Hend)].
  - exists "". repeat split. intros [|b u]; discriminate.
  - simpl. destruct (PyStr.rstrip c s) as [|b r] eqn:Hr.
    + destruct (Ascii.eqb_spec a c) as [->|Hac].
      * exists (String c t). split; [|split].
        -- rewrite app_empty_l. f_equal. now rewrite Hs at 1.
        -- simpl. now rewrite Ascii.eqb_refl.
        -- intros [|b u]; discriminate.
      * exists t. split; [|split].
        -- rewrite app_cons. f_equal. now rewrite Hs at 1.
        -- exact Ht.
        -- intros [|b [|b' u]]; rewrite ?app_cons, ?app_empty_l; try discriminate.
           intros [= ->]. contradiction.
    + exists t. split; [|split].
      * rewrite app_cons. f_equal. exact Hs.
      * exact Ht.
      * intros [|b' u]; rewrite ?app_cons, ?app_empty_l; [discriminate|].
        intros [= -> Hu]. now apply (Hend u).
Qed.

(** X11.  When [GITLAB_TOKEN], [GITHUB_ORG] or [GITHUB_TOKEN] is absent
    or empty, the script prints the message about missing configuration
    and exits with status 1: no directory is made and no request sent. *)
Theorem script_exits_on_missing_variable (environ : gmap string string)
    (fuel : nat) (w : W) :
  env_truthy (environ !! "GITLAB_TOKEN") &&
  env_truthy (environ !! "GITHUB_ORG") &&
  env_truthy (environ !! "GITHUB_TOKEN") = false ->
  script host environ fuel w =
    (w,
     [Print "Missing one of GITLAB_URL, GITLAB_TOKEN, GITHUB_ORG, GITHUB_TOKEN env vars"],
     Exit 1).
Proof.
  intros H. unfold script. cbn [forallb id].
  destruct (PyStr.nonempty _); cbn [andb negb]; [|reflexivity].
  destruct (env_truthy (environ !! "GITLAB_TOKEN")); cbn [andb negb]; [|reflexivity].
  destruct (env_truthy (environ !! "GITHUB_ORG")); cbn [andb negb]; [|reflexivity].
  destruct (env_truthy (environ !! "GITHUB_TOKEN")); cbn [andb negb]; [|reflexivity].
  discriminate.
Qed.

(** X12.  With the four variables set and not empty (for [GITLAB_URL]:
    not made of slashes alone), the script first makes the directory
    [CLONE_BASE], [./gitlab-mirror] unless the variable is set.  When
    [os.makedirs] raises (the variable is set to the empty string, the
    path is taken by a file, the parent may not be written), the script
    ends there, with status 1, and [main] never runs.  Otherwise it runs
    [main] on the tokens and the organisation as given and on
    [GITLAB_URL] without its trailing slashes, all of them and nothing
    else. *)
Theorem script_runs_main_when_configured (environ : gmap string string)
    (fuel : nat) (w w1 : W) (url token org github_token : string)
    (answer : exception + unit) :
  environ !! "GITLAB_URL" = Some url ->
  PyStr.all_char "/" url = false ->
  environ !! "GITLAB_TOKEN" = Some token -> token <> "" ->
  environ !! "GITHUB_ORG" = Some org -> org <> "" ->
  environ !! "GITHUB_TOKEN" = Some github_token -> github_token <> "" ->
  os_makedirs host (default "./gitlab-mirror" (environ !! "CLONE_BASE")) w =
    (w1, answer) ->
  exists stripped slashes base,
    url = stripped +:+ slashes /\
    PyStr.all_char "/" slashes = true /\
    (forall u, stripped <> u +:+ "/") /\
    base = default "./gitlab-mirror" (environ !! "CLONE_BASE") /\
    script host environ fuel w =
      match answer with
      | inr _ =>
          preceded [Makedirs base (inr tt)]
            (main host (Config stripped token org github_token base) fuel w1)
      | inl e => (w1, [Makedirs base (inl e)], Raise e)
      end /\
    (forall e, answer = inl e ->
       exit_status (result_of (script host environ fuel w)) = Some 1).
Proof.
  intros Hurl Hnot Htok Htok' Horg Horg' Hgh Hgh' Hmk.
  destruct (rstrip_spec "/" url) as (slashes & Hsplit & Hall & Hend).
  exists (PyStr.rstrip "/" url), slashes, (default "./gitlab-mirror" (environ !! "CLONE_BASE")).
  split; [exact Hsplit|]. split; [exact Hall|]. split; [exact Hend|].
  split; [reflexivity|].
  assert (script host environ fuel w =
            match answer with
            | inr _ =>
                preceded [Makedirs (default "./gitlab-mirror" (environ !! "CLONE_BASE"))
                                   (inr tt)]
                  (main host (Config (PyStr.rstrip "/" url) token org github_token
                                (default "./gitlab-mirror" (environ !! "CLONE_BASE")))
                        fuel w1)
            | inl e =>
                (w1, [Makedirs (default "./gitlab-mirror" (environ !! "CLONE_BASE"))
                               (inl e)], Raise e)
            end) as Hscript.
  { unfold script. rewrite Hurl, Htok, Horg, Hgh.
    cbn [default from_option id forallb env_truthy].
    assert (PyStr.nonempty (PyStr.rstrip "/" url) = true) as ->.
    { destruct (PyStr.rstrip "/" url) eqn:Hr; [|reflexivity].
      rewrite app_empty_l in Hsplit. subst slashes. congruence. }
    assert (forall s, s <> "" -> PyStr.nonempty s = true) as Hne
      by (intros [|? ?]; [contradiction | reflexivity]).
    rewrite (Hne _ Htok'), (Hne _ Horg'), (Hne _ Hgh'). cbn [andb negb].
    unfold bind at 1, makedirs. rewrite Hmk.
    destruct answer as [e|[]]; [reflexivity|].
    unfold preceded, world_of, trace_of, result_of.
    now destruct (main host _ fuel _) as [[w' t] r]. }
  split; [exact Hscript|].
  intros e ->. rewrite Hscript. reflexivity.
Qed.

End StartUp.

Lemma script_exits_on_missing_variable_witness :
  script Fixture.plain (delete "GITHUB_ORG" complete) 1 Fixture.empty =
    (Fixture.empty,
     [Print "Missing one of GITLAB_URL, GITLAB_TOKEN, GITHUB_ORG, GITHUB_TOKEN env vars"],
     Exit 1).
Proof.
  apply (script_exits_on_missing_variable Fixture.plain (delete "GITHUB_ORG" complete)
           1 Fixture.empty).
  vm_compute. reflexivity.
Defined.

Lemma script_runs_main_when_configured_witness :
  exists stripped slashes base,
    "https://gitlab.example/" = stripped +:+ slashes /\
    PyStr.all_char "/" slashes = true /\
    (forall u, stripped <> u +:+ "/") /\
    base = default "./gitlab-mirror" (complete !! "CLONE_BASE") /\
    script Fixture.read_only complete 3 Fixture.empty =
      (Fixture.empty, [Makedirs base (inl (OSError "PermissionError"))],
       Raise (OSError "PermissionError")) /\
    exit_status (result_of (script Fixture.read_only complete 3 Fixture.empty)) = Some 1.
Proof.
  destruct (script_runs_main_when_configured Fixture.read_only complete 3
              Fixture.empty Fixture.empty
              "https://gitlab.example/" "glpat-1" "acme" "ghp-1"
              (inl (OSError "PermissionError")))
    as (stripped & slashes & base & H1 & H2 & H3 & H4 & H5 & H6).
  - vm_compute. reflexivity.
  - reflexivity.
  - vm_compute. reflexivity.
  - discriminate.
  - vm_compute. reflexivity.
  - discriminate.
  - vm_compute. reflexivity.
  - discriminate.
  - vm_compute. reflexivity.
  - exists stripped, slashes, base.
    split; [exact H1|]. split; [exact H2|]. split; [exact H3|]. split; [exact H4|].
    split; [exact H5 | exact (H6 _ eq_refl)].
Defined.

(* ================================================================== *)
(** ** The parent of a mirror *)
(* ================================================================== *)

Section MirrorParent.

Lemma app_assoc_string (a b c : string) : a +:+ (b +:+ c) = (a +:+ b) +:+ c.
Proof.
  induction a as [|x a IH]; [reflexivity|].
  rewrite !app_cons. now f_equal.
Qed.

Lemma rev_app_slash_inv (s acc : string) :
  PyStr.startswith "/" (String.rev_app s acc) = true ->
  (exists u, s = u +:+ "/") \/ (s = "" /\ PyStr.startswith "/" acc = true).
Proof.
  revert acc. induction s as [|c s IH]; intros acc H.
  - right. split; [reflexivity | exact H].
  - left. cbn [String.rev_app] in H. destruct (IH _ H) as [[u ->]|[-> Hc]].
    + exists (String c u). reflexivity.
    + exists "". cbn [PyStr.startswith] in Hc. rewrite andb_true_r in Hc.
      apply Ascii.eqb_eq in Hc. now subst c.
Qed.

Lemma rev_app_slash (u acc : string) :
  PyStr.startswith "/" (String.rev_app (u +:+ "/") acc) = true.
Proof.
  revert acc. induction u as [|c u IH]; intros acc; [reflexivity|].
  rewrite app_cons. cbn [String.rev_app]. apply IH.
Qed.

Lemma endswith_slash (s : string) :
  PyStr.endswith "/" s = true <-> exists u, s = u +:+ "/".
Proof.
  unfold PyStr.endswith, String.rev. cbn [String.rev_app]. split.
  - intros H. destruct (rev_app_slash_inv s "" H) as [Hu|[_ Hf]];
      [exact Hu | discriminate].
  - intros [u ->]. apply rev_app_slash.
Qed.

Lemma all_char_last (c : ascii) (s : string) :
  PyStr.all_char c s = true -> s <> "" -> exists u, s = u +:+ String c "".
Proof.
  induction s as [|a s IH]; [contradiction|].
  simpl. intros [Ha Hs]%andb_true_iff _. apply Ascii.eqb_eq in Ha. subst a.
  destruct s as [|b s]; [exists ""; reflexivity|].
  destruct (IH Hs) as [u Hu]; [discriminate|].
  exists (String c u). rewrite app_cons. now f_equal.
Qed.

Lemma head_before_flat (u n : string) :
  PyStr.has_char "/" n = false ->
  OsPath.head ((u +:+ "/") +:+ n) = u +:+ "/".
Proof.
  intros Hn. induction u as [|c u IH].
  - rewrite app_empty_l, app_cons, app_empty_l. cbn [OsPath.head].
    unfold OsPath.sep. now rewrite Hn.
  - rewrite !app_cons. cbn [OsPath.head].
    assert (PyStr.has_char OsPath.sep ((u +:+ "/") +:+ n) = true) as ->.
    { unfold OsPath.sep. rewrite !has_char_app. simpl. now rewrite orb_true_r. }
    now rewrite IH.
Qed.

Lemma rstrip_app_all_char (c : ascii) (s t : string) :
  PyStr.all_char c t = true -> PyStr.rstrip c (s +:+ t) = PyStr.rstrip c s.
Proof.
  intros Ht. induction s as [|a s IH].
  - rewrite app_empty_l. now apply rstrip_all_char.
  - rewrite app_cons. simpl. now rewrite IH.
Qed.

(** X13.  The directory that the script makes before a clone, the parent
    of the mirror, is [CLONE_BASE] itself, without its trailing slashes
    (or as it is when it is made of slashes alone): the mirrors of all
    projects, whatever their groups, lie side by side in one directory. *)
Theorem mirror_parent_is_clone_base (cfg : config) (path : string) :
  CLONE_BASE cfg <> "" ->
  OsPath.dirname (mirror_dir cfg path) =
    (if PyStr.all_char "/" (CLONE_BASE cfg) then CLONE_BASE cfg
     else PyStr.rstrip "/" (CLONE_BASE cfg)).
Proof.
  intros Hbase. unfold mirror_dir, OsPath.join.
  assert (PyStr.startswith "/" (mirror_name path) = false) as ->.
  { destruct (PyStr.startswith "/" (mirror_name path)) eqn:E; [|reflexivity].
    apply startswith_has_char in E. now rewrite mirror_name_flat in E. }
  assert (PyStr.nonempty (CLONE_BASE cfg) = true) as ->.
  { destruct (CLONE_BASE cfg); [contradiction | reflexivity]. }
  cbn [negb orb].
  destruct (PyStr.endswith "/" (CLONE_BASE cfg)) eqn:Hend.
  - apply endswith_slash in Hend as [u Hu]. rewrite Hu.
    unfold OsPath.dirname. rewrite (head_before_flat u _ (mirror_name_flat path)).
    assert (PyStr.nonempty (u +:+ "/") = true) as ->.
    { destruct u; reflexivity. }
    unfold OsPath.sep. cbn [andb].
    now destruct (PyStr.all_char "/" (u +:+ "/")).
  - rewrite app_assoc_string.
    unfold OsPath.dirname.
    rewrite (head_before_flat (CLONE_BASE cfg) _ (mirror_name_flat path)).
    assert (PyStr.nonempty (CLONE_BASE cfg +:+ "/") = true) as ->.
    { destruct (CLONE_BASE cfg); reflexivity. }
    unfold OsPath.sep. rewrite all_char_app.
    assert (PyStr.all_char "/" (CLONE_BASE cfg) = false) as ->.
    { destruct (PyStr.all_char "/" (CLONE_BASE cfg)) eqn:Hall; [|reflexivity].
      destruct (all_char_last _ _ Hall Hbase) as [u Hu].
      assert (PyStr.endswith "/" (CLONE_BASE cfg) = true) as Ht
        by (apply endswith_slash; now exists u).
      congruence. }
    cbn [andb negb]. now apply rstrip_app_all_char.
Qed.

End MirrorParent.

Lemma mirror_parent_is_clone_base_witness :
  OsPath.dirname (mirror_dir Fixture.cfg "group/sub/project") =
    (if PyStr.all_char "/" (CLONE_BASE Fixture.cfg) then CLONE_BASE Fixture.cfg
     else PyStr.rstrip "/" (CLONE_BASE Fixture.cfg)).
Proof.
  apply (mirror_parent_is_clone_base Fixture.cfg "group/sub/project").
  discriminate.
Defined.

(* ================================================================== *)
(** ** A full path that is no string *)
(* ================================================================== *)

Section PathType.
Context {W : Type} (host : Host W) (cfg : config).

(** X14.  A live project whose [path_with_namespace] is not a string
    (a number, [null], an array) is logged as being processed and then
    stops the run: [replace] is no method of the value, the
    [AttributeError] is raised outside the [try] of the loop body, the
    projects after it are never processed and the process exits with
    status 1. *)
Theorem main_stops_on_non_string_path (p full_path proj_name http_url : json)
    (before after : list json) (w w1 : W) (t1 : list event) (os1 : list outcome) :
  readable p full_path proj_name http_url ->
  (forall s, full_path <> JStr s) ->
  truthy (field "archived" JNull p) = false ->
  main_loop host cfg before w = (w1, t1, Return os1) ->
  main_body host cfg p w1 =
    (w1, [Print (newline +:+ "=== Processing " +:+ str full_path +:+ " ===")],
     Raise AttributeError) /\
  main_loop host cfg (before ++ p :: after) w =
    (w1,
     (t1 ++ [Print (newline +:+ "=== Processing " +:+ str full_path +:+ " ===")])%list,
     Raise AttributeError) /\
  exit_status (result_of (main_loop host cfg (before ++ p :: after) w)) = Some 1.
Proof.
  intros Hr Hns Ha Hloop.
  assert (main_body host cfg p w1 =
            (w1, [Print (newline +:+ "=== Processing " +:+ str full_path +:+ " ===")],
             Raise AttributeError)) as Hbody.
  { rewrite (main_body_live host cfg _ _ _ _ w1 Hr Ha).
    unfold main_sync, bind at 1, print, emit. unfold bind at 1, local_mirror.
    destruct full_path as [| | |s| |]; try reflexivity.
    now contradiction (Hns s). }
  pose proof (main_loop_app_raise host cfg before after p w w1 w1 t1 _ os1
                AttributeError Hloop Hbody) as Hall.
  split; [exact Hbody|]. split; [exact Hall|]. now rewrite Hall.
Qed.

End PathType.

Lemma main_stops_on_non_string_path_witness :
  exists w1 t1 os1,
    main_loop Fixture.plain Fixture.cfg [Fixture.gamma] Fixture.empty =
      (w1, t1, Return os1) /\
    main_body Fixture.plain Fixture.cfg eta w1 =
      (w1, [Print (newline +:+ "=== Processing " +:+ str (JNum 7) +:+ " ===")],
       Raise AttributeError) /\
    main_loop Fixture.plain Fixture.cfg ([Fixture.gamma] ++ eta :: [Fixture.alpha])
      Fixture.empty =
      (w1,
       (t1 ++ [Print (newline +:+ "=== Processing " +:+ str (JNum 7) +:+ " ===")])%list,
       Raise AttributeError) /\
    exit_status
      (result_of (main_loop Fixture.plain Fixture.cfg
                    ([Fixture.gamma] ++ eta :: [Fixture.alpha]) Fixture.empty)) = Some 1.
Proof.
  assert (main_loop Fixture.plain Fixture.cfg [Fixture.gamma] Fixture.empty =
            (world_of (main_loop Fixture.plain Fixture.cfg [Fixture.gamma] Fixture.empty),
             trace_of (main_loop Fixture.plain Fixture.cfg [Fixture.gamma] Fixture.empty),
             Return [Completed])) as Hbefore by (vm_compute; reflexivity).
  eexists _, _, _. split; [exact Hbefore|].
  assert (readable eta (JNum 7) (JStr "eta")
            (JStr "https://gitlab.example/team/eta.git")) as Hr
    by (eexists; repeat split; reflexivity).
  assert (forall s, JNum 7 <> JStr s) as Hns by discriminate.
  apply (main_stops_on_non_string_path Fixture.plain Fixture.cfg eta (JNum 7)
           (JStr "eta") (JStr "https://gitlab.example/team/eta.git")
           [Fixture.gamma] [Fixture.alpha] Fixture.empty _ _ _ Hr Hns eq_refl Hbefore).
Defined.
